(** * photinia/widgets.py: a shallow embedding of the widget layer

    The Python module builds TensorFlow graphs.  The embedding keeps what the
    module itself decides: constructor-time validation, the shape arithmetic,
    the build/setup life cycle with the class-level registry
    [Widget.INSTANCES], the recurrent step functions as graph terms, and the
    parameter access helpers.  The framework is reduced to the small state
    the module observes: the current variable scope, the collection of
    variables and the values held by the session. *)

From Stdlib Require Import ZArith QArith Qround String Ascii List Lia Bool.
From stdpp Require Import gmap strings list pretty.

Local Open Scope string_scope.

(** ** Python values and exceptions *)

Module Py.

(** Exceptions raised by the module or by the interpreter on its behalf. *)
Inductive exn : Type :=
| ValueError (msg : string)
| RuntimeError (msg : string)
| TypeError (msg : string)
| KeyError (key : string)
| AttributeError (attr : string)
| IndexError
| ZeroDivisionError
| NotImplementedError.

(** What a call produces: a value or a raised exception. *)
Inductive outcome (A : Type) : Type :=
| Return (a : A)
| Raise (e : exn).
Arguments Return {A} a.
Arguments Raise {A} e.

Definition is_raise {A} (o : outcome A) : bool :=
  match o with Raise _ => true | Return _ => false end.

(** Values a caller may pass where the module expects a name. *)
Inductive object : Type :=
| None_
| Str (s : string)
| Int (z : Z)
| Bool_ (b : bool).

(** Values a caller may pass where the module expects a size: a tuple or
    list of integers, or a plain integer. *)
Inductive size_arg : Type :=
| Seq (l : list Z)
| Scalar (z : Z).

(** [str.isspace] on the ASCII range: tab, line feed, vertical tab, form
    feed, carriage return, the four separators 0x1c-0x1f and space. *)
Definition isspace (c : ascii) : bool :=
  let n := nat_of_ascii c in
  ((9 <=? n)%nat && (n <=? 13)%nat) || ((28 <=? n)%nat && (n <=? 32)%nat).

Fixpoint lstrip (s : string) : string :=
  match s with
  | EmptyString => EmptyString
  | String c s' => if isspace c then lstrip s' else s
  end.

(** Drops trailing whitespace; the head is kept as soon as something
    remains after it. *)
Fixpoint rstrip (s : string) : string :=
  match s with
  | EmptyString => EmptyString
  | String c s' =>
      match rstrip s' with
      | EmptyString => if isspace c then EmptyString else String c EmptyString
      | r => String c r
      end
  end.

(** [s.strip()] *)
Definition strip (s : string) : string := rstrip (lstrip s).

(** [len(s)] *)
Definition len (s : string) : Z := Z.of_nat (String.length s).

Definition lower_char (c : ascii) : ascii :=
  let n := nat_of_ascii c in
  if ((65 <=? n)%nat && (n <=? 90)%nat) then ascii_of_nat (n + 32) else c.

(** [s.lower()] on the ASCII range. *)
Fixpoint lower (s : string) : string :=
  match s with
  | EmptyString => EmptyString
  | String c s' => String (lower_char c) (lower s')
  end.

(** [s.startswith(p)] *)
Definition startswith (s p : string) : bool := String.prefix p s.

(** [s.endswith("/")] *)
Fixpoint endswith_slash (s : string) : bool :=
  match s with
  | EmptyString => false
  | String c EmptyString => Ascii.eqb c "/"
  | String _ s' => endswith_slash s'
  end.

(** [math.ceil(a / b)] for integers [a], [b]: true division followed by
    the ceiling.  The quotient is taken exactly; Python's float quotient
    has the same ceiling as long as both operands are below 2^53 in
    magnitude.  A zero divisor raises. *)
Definition ceil_div (a b : Z) : outcome Z :=
  if (b =? 0)%Z then Raise ZeroDivisionError
  else Return (Qceiling (inject_Z a / inject_Z b)).

(** [math.floor(a / b)] *)
Definition floor_div (a b : Z) : outcome Z :=
  if (b =? 0)%Z then Raise ZeroDivisionError
  else Return (Qfloor (inject_Z a / inject_Z b)).

End Py.
Export Py.

(** ** The slice of the framework that the module observes *)

Module tf.

(** Graph nodes.  Calls such as [tf.matmul] add a node to the default
    graph and return it; the returned term stands for the node together
    with its inputs.  The optional string is the [name=] argument. *)
Inductive tensor : Type :=
| Input (name : string)
| Var (name : string)
| Const (q : Q)
| Dim (z : Z)
| Tuple (a b : tensor)
| Nil
| Cons (hd tl : tensor)
| Zeros (name : option string) (shape : tensor)
| ShapeOf (t : tensor) (axis : nat)
| MatMul (a b : tensor)
| Add (name : option string) (a b : tensor)
| Sub (a b : tensor)
| Mul (name : option string) (a b : tensor)
| Sigmoid (name : option string) (a : tensor)
| Tanh (a : tensor)
| Relu (a : tensor)
| Conv2d (input filter : tensor) (strides : list Z) (padding data_format : string)
| MaxPool (value : tensor) (ksize strides : list Z) (padding : string)
| AvgPool (value : tensor) (ksize strides : list Z) (padding : string)
| Reshape (t : tensor) (dims : list Z)
| Split (value : tensor) (num : Z) (axis : Z) (i : nat)
| Concat (values : tensor) (axis : Z)
| Scan (body : tensor) (elems : tensor) (initializer : tensor)
| Item (t : tensor) (i : nat).

(** What a [_setup] hook hands back: a tensor, a pair of tensors, or
    [None] when the function falls off its end. *)
Inductive result : Type :=
| One (t : tensor)
| Two (a b : tensor)
| Nothing.

(** [tf.Variable]: the name under which the graph knows it, whether it is
    in the trainable collection, and its shape. *)
Record variable : Type := MkVariable {
  name : string;
  trainable : bool;
  shape : list Z }.

(** Values loaded into variables; their content is opaque to the module. *)
Definition ndarray : Type := list Z.

(** Prefix that the current scope gives to the names created inside it. *)
Definition name_scope (scope : string) : string :=
  if String.eqb scope "" then "" else scope ++ "/".

(** Name of the scope opened by [tf.variable_scope(n)] inside [scope]. *)
Definition nested_scope (scope n : string) : string :=
  if String.eqb scope "" then n else scope ++ "/" ++ n.

End tf.

(** ** Widgets as heap objects *)

(** Attributes stored by the constructors of the concrete classes. *)

Module Linear.
Record t : Type := Make {
  _input_size : Z;
  _output_size : Z;
  _with_bias : bool;
  _w : option tf.tensor;
  _b : option tf.tensor }.
End Linear.

Module Conv2D.
Record t : Type := Make {
  _input_height : Z;
  _input_width : Z;
  _input_channels : Z;
  _output_channels : Z;
  _filter_height : Z;
  _filter_width : Z;
  _stride_height : Z;
  _stride_width : Z;
  _padding : string;
  _flat_output : bool;
  _output_height : Z;
  _output_width : Z;
  _flat_size : Z;
  _w : option tf.tensor;
  _b : option tf.tensor }.
End Conv2D.

Module Pool2D.
Record t : Type := Make {
  _input_size : list Z;
  _filter_height : Z;
  _filter_width : Z;
  _stride_height : Z;
  _stride_width : Z;
  _padding : string;
  _pool_type : string;
  _input_height : Z;
  _input_width : Z;
  _input_channels : Z;
  _output_height : Z;
  _output_width : Z;
  _flat_size : Z }.
End Pool2D.

Module GroupConv2D.
Record t : Type := Make {
  _input_height : Z;
  _input_width : Z;
  _input_channels : Z;
  _output_channels : Z;
  _num_groups : Z;
  _filter_height : Z;
  _filter_width : Z;
  _stride_height : Z;
  _stride_width : Z;
  _data_format : string;
  _padding : string;
  _flat_output : bool;
  _output_height : Z;
  _output_width : Z;
  _flat_size : Z;
  _w : option tf.tensor;
  _b : option tf.tensor }.
End GroupConv2D.

Module GRUCell.
Record t : Type := Make {
  _input_size : Z;
  _state_size : Z;
  _with_bias : bool;
  _activation : option (tf.tensor -> tf.tensor);
  _wz : option tf.tensor;
  _wr : option tf.tensor;
  _wh : option tf.tensor;
  _uz : option tf.tensor;
  _ur : option tf.tensor;
  _uh : option tf.tensor;
  _bz : option tf.tensor;
  _br : option tf.tensor;
  _bh : option tf.tensor }.
End GRUCell.

Module LSTMCell.
Record t : Type := Make {
  _input_size : Z;
  _state_size : Z;
  _with_bias : bool;
  _activation : option (tf.tensor -> tf.tensor);
  _wi : option tf.tensor;
  _wf : option tf.tensor;
  _wo : option tf.tensor;
  _wc : option tf.tensor;
  _ui : option tf.tensor;
  _uf : option tf.tensor;
  _uo : option tf.tensor;
  _uc : option tf.tensor;
  _bi : option tf.tensor;
  _bf : option tf.tensor;
  _bo : option tf.tensor;
  _bc : option tf.tensor }.
End LSTMCell.

Module Gate.
Record t : Type := Make {
  _input_sizes : list Z;
  _output_size : Z;
  _w_list : option (list tf.tensor);
  _b : option tf.tensor }.
End Gate.

(** The class of an object together with the attributes of that class.
    [Base] is [Widget] itself, whose hooks are abstract. *)
Inductive class_attrs : Type :=
| Base
| OfLinear (a : Linear.t)
| OfConv2D (a : Conv2D.t)
| OfPool2D (a : Pool2D.t)
| OfGroupConv2D (a : GroupConv2D.t)
| OfGRUCell (a : GRUCell.t)
| OfLSTMCell (a : LSTMCell.t)
| OfGate (a : Gate.t).

(** Attributes set by [Widget.__init__]. *)
Record widget : Type := MkWidget {
  _name : option string;
  _scope : string;
  _full_name : option string;
  _prefix : option string;
  _built : bool;
  attrs : class_attrs }.

(** The interpreter state the module reads and writes. *)
Record world : Type := World {
  variable_scope : string;
  variables : list tf.variable;
  session : gmap string tf.ndarray;
  INSTANCES : gmap string nat;
  objects : gmap nat widget;
  next_ref : nat }.

Definition empty_world : world :=
  {| variable_scope := ""; variables := []; session := ∅;
     INSTANCES := ∅; objects := ∅; next_ref := 0 |}.

(** ** Computations: state passing with exceptions

    An exception leaves the state as it was when it was raised. *)

Definition M (A : Type) : Type := world -> outcome A * world.

#[global] Instance M_ret : MRet M := fun A a st => (Return a, st).

#[global] Instance M_bind : MBind M := fun A B k c st =>
  match c st with
  | (Return a, st') => k a st'
  | (Raise e, st') => (Raise e, st')
  end.

Definition raise {A} (e : exn) : M A := fun st => (Raise e, st).

Definition lift {A} (o : outcome A) : M A := fun st => (o, st).

Definition set_variable_scope (s : string) (st : world) : world :=
  {| variable_scope := s; variables := variables st; session := session st;
     INSTANCES := INSTANCES st; objects := objects st; next_ref := next_ref st |}.

Definition set_variables (vs : list tf.variable) (st : world) : world :=
  {| variable_scope := variable_scope st; variables := vs; session := session st;
     INSTANCES := INSTANCES st; objects := objects st; next_ref := next_ref st |}.

Definition set_session (s : gmap string tf.ndarray) (st : world) : world :=
  {| variable_scope := variable_scope st; variables := variables st; session := s;
     INSTANCES := INSTANCES st; objects := objects st; next_ref := next_ref st |}.

Definition set_INSTANCES (r : gmap string nat) (st : world) : world :=
  {| variable_scope := variable_scope st; variables := variables st;
     session := session st; INSTANCES := r; objects := objects st;
     next_ref := next_ref st |}.

Definition set_objects (h : gmap nat widget) (st : world) : world :=
  {| variable_scope := variable_scope st; variables := variables st;
     session := session st; INSTANCES := INSTANCES st; objects := h;
     next_ref := next_ref st |}.

(** [tf.get_variable_scope().name] *)
Definition get_variable_scope_name : M string :=
  fun st => (Return (variable_scope st), st).

(** [with tf.variable_scope(n): body].  The scope is left again when the
    body returns and when it raises.  [tf.variable_scope(None)] raises
    before the body is entered. *)
Definition with_variable_scope {A} (n : option string) (body : M A) : M A :=
  fun st =>
    match n with
    | None => (Raise (TypeError "If default_name is None then name_or_scope is required."), st)
    | Some n =>
        let outer := variable_scope st in
        let '(r, st') := body (set_variable_scope (tf.nested_scope outer n) st) in
        (r, set_variable_scope outer st')
    end.

(** [tf.Variable(..., name=local)]: a trainable variable is added to the
    graph's collection under the current scope.  The suffix the framework
    appends to a name that is already taken is left out. *)
Definition tf_Variable (local : string) (shape : list Z) : M tf.tensor :=
  fun st =>
    let full := tf.name_scope (variable_scope st) ++ local ++ ":0" in
    (Return (tf.Var full),
     set_variables (variables st ++ [tf.MkVariable full true shape]) st).

(** [tf.global_variables()] and [tf.trainable_variables()] *)
Definition tf_global_variables : M (list tf.variable) :=
  fun st => (Return (variables st), st).

Definition tf_trainable_variables : M (list tf.variable) :=
  fun st => (Return (filter (fun v => tf.trainable v = true) (variables st)), st).

(** [var.load(value, session=session)] *)
Definition var_load (v : tf.variable) (value : tf.ndarray) : M unit :=
  fun st => (Return tt, set_session (<[tf.name v := value]> (session st)) st).

(** Reading and writing the attributes of [self].  A reference that was
    never allocated has no attributes. *)
Definition get_obj (self : nat) : M widget :=
  fun st =>
    match objects st !! self with
    | Some w => (Return w, st)
    | None => (Raise (AttributeError "self"), st)
    end.

Definition set_obj (self : nat) (w : widget) : M unit :=
  fun st => (Return tt, set_objects (<[self := w]> (objects st)) st).

Definition alloc (w : widget) : M nat :=
  fun st =>
    let self := next_ref st in
    (Return self,
     {| variable_scope := variable_scope st; variables := variables st;
        session := session st; INSTANCES := INSTANCES st;
        objects := <[self := w]> (objects st); next_ref := S self |}).

Definition with_scope (s : string) (w : widget) : widget :=
  {| _name := _name w; _scope := s; _full_name := _full_name w;
     _prefix := _prefix w; _built := _built w; attrs := attrs w |}.

Definition with_full_name (f : option string) (w : widget) : widget :=
  {| _name := _name w; _scope := _scope w; _full_name := f;
     _prefix := _prefix w; _built := _built w; attrs := attrs w |}.

Definition with_prefix (p : option string) (w : widget) : widget :=
  {| _name := _name w; _scope := _scope w; _full_name := _full_name w;
     _prefix := p; _built := _built w; attrs := attrs w |}.

Definition with_built (b : bool) (w : widget) : widget :=
  {| _name := _name w; _scope := _scope w; _full_name := _full_name w;
     _prefix := _prefix w; _built := b; attrs := attrs w |}.

Definition with_attrs (a : class_attrs) (w : widget) : widget :=
  {| _name := _name w; _scope := _scope w; _full_name := _full_name w;
     _prefix := _prefix w; _built := _built w; attrs := a |}.

(** [self.<attribute> = ...] *)
Definition update (self : nat) (f : widget -> widget) : M unit :=
  w ← get_obj self; set_obj self (f w).

(** ** The [_build] hooks: parameter creation *)

Definition Linear__build (a : Linear.t) : M Linear.t :=
  w ← tf_Variable "w" [Linear._input_size a; Linear._output_size a];
  b ← (if Linear._with_bias a
       then (v ← tf_Variable "b" [Linear._output_size a]; mret (Some v))
       else mret None);
  mret (Linear.Make (Linear._input_size a) (Linear._output_size a)
          (Linear._with_bias a) (Some w) b).

Definition Conv2D__build (a : Conv2D.t) : M Conv2D.t :=
  w ← tf_Variable "w" [Conv2D._filter_height a; Conv2D._filter_width a;
                       Conv2D._input_channels a; Conv2D._output_channels a];
  b ← tf_Variable "b" [Conv2D._output_channels a];
  mret (Conv2D.Make (Conv2D._input_height a) (Conv2D._input_width a)
          (Conv2D._input_channels a) (Conv2D._output_channels a)
          (Conv2D._filter_height a) (Conv2D._filter_width a)
          (Conv2D._stride_height a) (Conv2D._stride_width a)
          (Conv2D._padding a) (Conv2D._flat_output a)
          (Conv2D._output_height a) (Conv2D._output_width a)
          (Conv2D._flat_size a) (Some w) (Some b)).

Definition Pool2D__build (a : Pool2D.t) : M Pool2D.t := mret a.

Definition GroupConv2D__build (a : GroupConv2D.t) : M GroupConv2D.t :=
  per_group ← lift (floor_div (GroupConv2D._input_channels a)
                              (GroupConv2D._num_groups a));
  w ← tf_Variable "w" [GroupConv2D._filter_height a; GroupConv2D._filter_width a;
                       per_group; GroupConv2D._output_channels a];
  b ← tf_Variable "b" [GroupConv2D._output_channels a];
  mret (GroupConv2D.Make (GroupConv2D._input_height a)
          (GroupConv2D._input_width a) (GroupConv2D._input_channels a)
          (GroupConv2D._output_channels a) (GroupConv2D._num_groups a)
          (GroupConv2D._filter_height a) (GroupConv2D._filter_width a)
          (GroupConv2D._stride_height a) (GroupConv2D._stride_width a)
          (GroupConv2D._data_format a) (GroupConv2D._padding a)
          (GroupConv2D._flat_output a) (GroupConv2D._output_height a)
          (GroupConv2D._output_width a) (GroupConv2D._flat_size a)
          (Some w) (Some b)).

Definition GRUCell__build (a : GRUCell.t) : M GRUCell.t :=
  let i := GRUCell._input_size a in
  let s := GRUCell._state_size a in
  wz ← tf_Variable "wz" [i; s];
  wr ← tf_Variable "wr" [i; s];
  wh ← tf_Variable "wh" [i; s];
  uz ← tf_Variable "uz" [s; s];
  ur ← tf_Variable "ur" [s; s];
  uh ← tf_Variable "uh" [s; s];
  if GRUCell._with_bias a then
    bz ← tf_Variable "bz" [s];
    br ← tf_Variable "br" [s];
    bh ← tf_Variable "bh" [s];
    mret (GRUCell.Make i s (GRUCell._with_bias a) (GRUCell._activation a)
            (Some wz) (Some wr) (Some wh) (Some uz) (Some ur) (Some uh)
            (Some bz) (Some br) (Some bh))
  else
    mret (GRUCell.Make i s (GRUCell._with_bias a) (GRUCell._activation a)
            (Some wz) (Some wr) (Some wh) (Some uz) (Some ur) (Some uh)
            (GRUCell._bz a) (GRUCell._br a) (GRUCell._bh a)).

Definition LSTMCell__build (a : LSTMCell.t) : M LSTMCell.t :=
  let i := LSTMCell._input_size a in
  let s := LSTMCell._state_size a in
  wi ← tf_Variable "wi" [i; s];
  wf ← tf_Variable "wf" [i; s];
  wo ← tf_Variable "wo" [i; s];
  wc ← tf_Variable "wc" [i; s];
  ui ← tf_Variable "ui" [s; s];
  uf ← tf_Variable "uf" [s; s];
  uo ← tf_Variable "uo" [s; s];
  uc ← tf_Variable "uc" [s; s];
  if LSTMCell._with_bias a then
    bi ← tf_Variable "bi" [s];
    bf ← tf_Variable "bf" [s];
    bo ← tf_Variable "bo" [s];
    bc ← tf_Variable "bc" [s];
    mret (LSTMCell.Make i s (LSTMCell._with_bias a) (LSTMCell._activation a)
            (Some wi) (Some wf) (Some wo) (Some wc)
            (Some ui) (Some uf) (Some uo) (Some uc)
            (Some bi) (Some bf) (Some bo) (Some bc))
  else
    mret (LSTMCell.Make i s (LSTMCell._with_bias a) (LSTMCell._activation a)
            (Some wi) (Some wf) (Some wo) (Some wc)
            (Some ui) (Some uf) (Some uo) (Some uc)
            (LSTMCell._bi a) (LSTMCell._bf a) (LSTMCell._bo a) (LSTMCell._bc a)).

(** The loop of [Gate._build]: one weight per input size, named by its
    position. *)
Fixpoint Gate__build_loop (i : nat) (input_sizes : list Z) (output_size : Z)
    (w_list : list tf.tensor) : M (list tf.tensor) :=
  match input_sizes with
  | [] => mret w_list
  | input_size :: rest =>
      w ← tf_Variable ("w_" ++ pretty i) [input_size; output_size];
      Gate__build_loop (S i) rest output_size (w_list ++ [w])
  end.

Definition Gate__build (a : Gate.t) : M Gate.t :=
  w_list ← Gate__build_loop 0 (Gate._input_sizes a) (Gate._output_size a) [];
  b ← tf_Variable "b" [Gate._output_size a];
  mret (Gate.Make (Gate._input_sizes a) (Gate._output_size a)
          (Some w_list) (Some b)).

(** [self._build()], dispatched on the class of [self].  [Widget._build]
    itself is abstract. *)
Definition _build (a : class_attrs) : M class_attrs :=
  match a with
  | Base => raise NotImplementedError
  | OfLinear a => a' ← Linear__build a; mret (OfLinear a')
  | OfConv2D a => a' ← Conv2D__build a; mret (OfConv2D a')
  | OfPool2D a => a' ← Pool2D__build a; mret (OfPool2D a')
  | OfGroupConv2D a => a' ← GroupConv2D__build a; mret (OfGroupConv2D a')
  | OfGRUCell a => a' ← GRUCell__build a; mret (OfGRUCell a')
  | OfLSTMCell a => a' ← LSTMCell__build a; mret (OfLSTMCell a')
  | OfGate a => a' ← Gate__build a; mret (OfGate a')
  end.

(** ** [Widget] *)

(** ['%s' % name] *)
Definition str (o : option string) : string :=
  match o with Some s => s | None => "None" end.

Definition duplicate_error (full_name : string) : exn :=
  ValueError ("Duplicated widget name " ++ full_name ++ ".").

(** [Widget.build].  The registry is consulted under [Widget.LOCK] after
    the hook has run inside the widget's scope. *)
Definition Widget_build (self : nat) : M nat :=
  w ← get_obj self;
  if _built w then mret self
  else
    scope ← get_variable_scope_name;
    update self (with_scope scope);;
    full_name ←
      (if String.eqb scope "" then mret (_name w)
       else if endswith_slash scope then
         match _name w with
         | Some n => mret (Some (scope ++ n))
         | None => raise (TypeError "must be str, not NoneType")
         end
       else mret (Some (scope ++ "/" ++ str (_name w))));
    update self (with_full_name full_name);;
    match full_name with
    | None => raise (TypeError "unsupported operand type(s) for +: 'NoneType' and 'str'")
    | Some full_name =>
        update self (with_prefix (Some (full_name ++ "/")));;
        with_variable_scope (_name w)
          (a ← _build (attrs w);
           update self (with_attrs a);;
           update self (with_built true));;
        registry ← (fun st => (Return (INSTANCES st), st));
        match registry !! full_name with
        | Some _ => raise (duplicate_error full_name)
        | None =>
            (fun st => (Return tt, set_INSTANCES (<[full_name := self]> registry) st));;
            mret self
        end
    end.

(** [Widget.__init__].  The object comes into being with the attributes its
    subclass constructor has stored so far. *)
Definition Widget___init__ (a : class_attrs) (name : object) (build : bool) : M nat :=
  n ← match name with
      | None_ => mret None
      | Str s =>
          if negb (len (strip s) =? len s)%Z || String.eqb s ""
          then raise (ValueError "Widget name cannot be empty or contain space characters.")
          else mret (Some s)
      | _ => raise (ValueError "Widget name must be specified with string.")
      end;
  self ← alloc {| _name := n; _scope := ""; _full_name := None; _prefix := None;
                  _built := false; attrs := a |};
  if build then Widget_build self;; mret self else mret self.

(** [self.<attribute>] for an attribute that [_build] creates. *)
Definition attr {A} (name : string) (o : option A) : M A :=
  match o with
  | Some a => mret a
  | None => raise (AttributeError name)
  end.

(** Calling a hook with the wrong number of positional arguments. *)
Definition arity_error {A} : M A :=
  raise (TypeError "_setup() takes a different number of positional arguments").

(** ** The [_setup] hooks: graph wiring *)

Definition Linear__setup (a : Linear.t) (args : list tf.tensor) : M tf.result :=
  match args with
  | [x] =>
      w ← attr "_w" (Linear._w a);
      let y := tf.MatMul x w in
      if Linear._with_bias a then
        b ← attr "_b" (Linear._b a);
        mret (tf.One (tf.Add None y b))
      else mret (tf.One y)
  | _ => arity_error
  end.

Definition Conv2D__setup (a : Conv2D.t) (args : list tf.tensor) : M tf.result :=
  match args with
  | [x] =>
      w ← attr "_w" (Conv2D._w a);
      b ← attr "_b" (Conv2D._b a);
      let y := tf.Add None
                 (tf.Conv2d x w [1; Conv2D._stride_height a; Conv2D._stride_width a; 1]%Z
                    (Conv2D._padding a) "NHWC") b in
      if Conv2D._flat_output a
      then mret (tf.One (tf.Reshape y [(-1)%Z; Conv2D._flat_size a]))
      else mret (tf.One y)
  | _ => arity_error
  end.

Definition Pool2D__setup (a : Pool2D.t) (args : list tf.tensor) : M tf.result :=
  match args with
  | [x] =>
      let ksize := [1; Pool2D._filter_height a; Pool2D._filter_width a; 1]%Z in
      let strides := [1; Pool2D._stride_height a; Pool2D._stride_width a; 1]%Z in
      if String.eqb (Pool2D._pool_type a) "max"
      then mret (tf.One (tf.MaxPool x ksize strides (Pool2D._padding a)))
      else if String.eqb (Pool2D._pool_type a) "avg"
      then mret (tf.One (tf.AvgPool x ksize strides (Pool2D._padding a)))
      else mret tf.Nothing
  | _ => arity_error
  end.

(** A Python list of graph nodes, as one graph term. *)
Definition tensor_list (l : list tf.tensor) : tf.tensor :=
  foldr tf.Cons tf.Nil l.

Definition GroupConv2D__setup (a : GroupConv2D.t) (args : list tf.tensor) : M tf.result :=
  match args with
  | [x] =>
      w ← attr "_w" (GroupConv2D._w a);
      let n := GroupConv2D._num_groups a in
      let y_list :=
        map (fun i =>
               tf.Conv2d (tf.Split x n 3 i) (tf.Split w n 3 i)
                 [1; GroupConv2D._stride_height a; GroupConv2D._stride_width a; 1]%Z
                 (GroupConv2D._padding a) (GroupConv2D._data_format a))
            (seq 0 (Z.to_nat n)) in
      b ← attr "_b" (GroupConv2D._b a);
      let y := tf.Add None (tf.Concat (tensor_list y_list) 3) b in
      if GroupConv2D._flat_output a
      then mret (tf.One (tf.Reshape y [(-1)%Z; GroupConv2D._flat_size a]))
      else mret (tf.One y)
  | _ => arity_error
  end.

(** [self._activation(h) if self._activation is not None else h] *)
Definition activate (f : option (tf.tensor -> tf.tensor)) (t : tf.tensor) : tf.tensor :=
  match f with
  | Some f => f t
  | None => t
  end.

Definition GRUCell__setup (a : GRUCell.t) (args : list tf.tensor) : M tf.result :=
  match args with
  | [x; h_] =>
      '(z, r, h) ←
        (if GRUCell._with_bias a then
           wz ← attr "_wz" (GRUCell._wz a);
           uz ← attr "_uz" (GRUCell._uz a);
           bz ← attr "_bz" (GRUCell._bz a);
           let z := tf.Sigmoid (Some "update_gate")
                      (tf.Add None (tf.Add None (tf.MatMul x wz) (tf.MatMul h_ uz)) bz) in
           wr ← attr "_wr" (GRUCell._wr a);
           ur ← attr "_ur" (GRUCell._ur a);
           br ← attr "_br" (GRUCell._br a);
           let r := tf.Sigmoid (Some "reset_gate")
                      (tf.Add None (tf.Add None (tf.MatMul x wr) (tf.MatMul h_ ur)) br) in
           wh ← attr "_wh" (GRUCell._wh a);
           uh ← attr "_uh" (GRUCell._uh a);
           bh ← attr "_bh" (GRUCell._bh a);
           mret (z, r,
                 tf.Add None
                   (tf.Add None (tf.MatMul x wh) (tf.MatMul (tf.Mul None r h_) uh)) bh)
         else
           wz ← attr "_wz" (GRUCell._wz a);
           uz ← attr "_uz" (GRUCell._uz a);
           let z := tf.Sigmoid (Some "update_gate")
                      (tf.Add None (tf.MatMul x wz) (tf.MatMul h_ uz)) in
           wr ← attr "_wr" (GRUCell._wr a);
           ur ← attr "_ur" (GRUCell._ur a);
           let r := tf.Sigmoid (Some "reset_gate")
                      (tf.Add None (tf.MatMul x wr) (tf.MatMul h_ ur)) in
           wh ← attr "_wh" (GRUCell._wh a);
           uh ← attr "_uh" (GRUCell._uh a);
           mret (z, r,
                 tf.Add None (tf.MatMul x wh) (tf.MatMul (tf.Mul None r h_) uh)));
      let h := activate (GRUCell._activation a) h in
      let h := tf.Add None (tf.Mul None z h_)
                 (tf.Mul None (tf.Sub (tf.Const 1) z) h) in
      mret (tf.One h)
  | _ => arity_error
  end.

Definition LSTMCell__setup (a : LSTMCell.t) (args : list tf.tensor) : M tf.result :=
  match args with
  | [x; prev_cell_state; prev_state] =>
      let affine w u := tf.Add None (tf.MatMul x w) (tf.MatMul prev_state u) in
      '(input_gate, forget_gate, output_gate, cell_state) ←
        (if LSTMCell._with_bias a then
           wi ← attr "_wi" (LSTMCell._wi a);
           ui ← attr "_ui" (LSTMCell._ui a);
           bi ← attr "_bi" (LSTMCell._bi a);
           wf ← attr "_wf" (LSTMCell._wf a);
           uf ← attr "_uf" (LSTMCell._uf a);
           bf ← attr "_bf" (LSTMCell._bf a);
           wo ← attr "_wo" (LSTMCell._wo a);
           uo ← attr "_uo" (LSTMCell._uo a);
           bo ← attr "_bo" (LSTMCell._bo a);
           wc ← attr "_wc" (LSTMCell._wc a);
           uc ← attr "_uc" (LSTMCell._uc a);
           bc ← attr "_bc" (LSTMCell._bc a);
           mret (tf.Sigmoid (Some "input_gate") (tf.Add None (affine wi ui) bi),
                 tf.Sigmoid (Some "forget_gate") (tf.Add None (affine wf uf) bf),
                 tf.Sigmoid (Some "output_gate") (tf.Add None (affine wo uo) bo),
                 tf.Add None (affine wc uc) bc)
         else
           wi ← attr "_wi" (LSTMCell._wi a);
           ui ← attr "_ui" (LSTMCell._ui a);
           wf ← attr "_wf" (LSTMCell._wf a);
           uf ← attr "_uf" (LSTMCell._uf a);
           wo ← attr "_wo" (LSTMCell._wo a);
           uo ← attr "_uo" (LSTMCell._uo a);
           wc ← attr "_wc" (LSTMCell._wc a);
           uc ← attr "_uc" (LSTMCell._uc a);
           mret (tf.Sigmoid (Some "input_gate") (affine wi ui),
                 tf.Sigmoid (Some "forget_gate") (affine wf uf),
                 tf.Sigmoid (Some "output_gate") (affine wo uo),
                 affine wc uc));
      let cell_state := activate (LSTMCell._activation a) cell_state in
      let cell_state :=
        tf.Add (Some "cell_state") (tf.Mul None forget_gate prev_cell_state)
          (tf.Mul None input_gate cell_state) in
      let cell_state := activate (LSTMCell._activation a) cell_state in
      let state := tf.Mul (Some "state") output_gate cell_state in
      mret (tf.Two cell_state state)
  | _ => arity_error
  end.

(** The loop of [Gate._setup]: [y] starts as [None] and accumulates one
    product per input. *)
Fixpoint Gate__setup_loop (x_list w_list : list tf.tensor) (y : option tf.tensor)
    : M (option tf.tensor) :=
  match x_list with
  | [] => mret y
  | x :: xs =>
      match w_list with
      | [] => raise IndexError
      | w :: ws =>
          Gate__setup_loop xs ws
            (Some match y with
                  | None => tf.MatMul x w
                  | Some y => tf.Add None y (tf.MatMul x w)
                  end)
      end
  end.

Definition Gate__setup (a : Gate.t) (x_list : list tf.tensor) : M tf.result :=
  w_list ← attr "_w_list" (Gate._w_list a);
  if negb (length x_list =? length w_list)%nat then raise (ValueError "")
  else
    y ← Gate__setup_loop x_list w_list None;
    b ← attr "_b" (Gate._b a);
    match y with
    | None => raise (ValueError "None values not supported.")
    | Some y => mret (tf.One (tf.Sigmoid None (tf.Add None y b)))
    end.

(** [self._setup], applied to the positional arguments and dispatched on
    the class of [self]. *)
Definition _setup (a : class_attrs) (args : list tf.tensor) : M tf.result :=
  match a with
  | Base => raise NotImplementedError
  | OfLinear a => Linear__setup a args
  | OfConv2D a => Conv2D__setup a args
  | OfPool2D a => Pool2D__setup a args
  | OfGroupConv2D a => GroupConv2D__setup a args
  | OfGRUCell a => GRUCell__setup a args
  | OfLSTMCell a => LSTMCell__setup a args
  | OfGate a => Gate__setup a args
  end.

Definition not_built_error : exn :=
  RuntimeError "This widget has not been built. Please build first.".

(** [Widget.setup] *)
Definition Widget_setup (self : nat) (args : list tf.tensor) : M tf.result :=
  w ← get_obj self;
  if negb (_built w) then raise not_built_error
  else
    match _name w with
    | None => _setup (attrs w) args
    | Some _ => with_variable_scope (_prefix w) (_setup (attrs w) args)
    end.

(** ** Access to the parameters *)

(** [[var for var in vars if var.name.startswith(prefix)]].  The test is
    evaluated once per variable, so a prefix of [None] only fails when there
    is a variable to test. *)
Definition select_prefixed (prefix : option string) (vars : list tf.variable)
    : outcome (list tf.variable) :=
  match vars, prefix with
  | [], _ => Return []
  | _, None => Raise (TypeError "startswith first arg must be str")
  | _, Some p => Return (List.filter (fun v => startswith (tf.name v) p) vars)
  end.

(** [Widget.get_variables] *)
Definition Widget_get_variables (self : nat) : M (list tf.variable) :=
  w ← get_obj self;
  match _name w with
  | None => mret []
  | Some _ =>
      let prefix := _prefix w in
      global_vars ← tf_global_variables;
      lift (select_prefixed prefix global_vars)
  end.

(** [Widget.get_trainable_variables] *)
Definition Widget_get_trainable_variables (self : nat) : M (list tf.variable) :=
  w ← get_obj self;
  match _name w with
  | None => mret []
  | Some _ =>
      trainable_vars ← tf_trainable_variables;
      lift (select_prefixed (_prefix w) trainable_vars)
  end.

(** [{var.name: var for var in var_list}]: a later variable replaces an
    earlier one of the same name. *)
Definition var_dict_of (var_list : list tf.variable) : gmap string tf.variable :=
  foldl (fun d var => <[tf.name var := var]> d) ∅ var_list.

(** The loop of [Widget.set_parameters] over [param_dict.items()]. *)
Fixpoint set_parameters_loop (var_dict : gmap string tf.variable)
    (items : list (string * tf.ndarray)) (strict : bool) : M unit :=
  match items with
  | [] => mret tt
  | (name, value) :: rest =>
      (if bool_decide (var_dict !! name = None) then
         if strict then raise (ValueError (name ++ " is not in this model."))
         else mret tt
       else mret tt);;
      var ← match var_dict !! name with
            | Some var => mret var
            | None => raise (KeyError name)
            end;
      var_load var value;;
      set_parameters_loop var_dict rest strict
  end.

(** [Widget.set_parameters].  [param_dict] is given by its items in
    iteration order. *)
Definition Widget_set_parameters (self : nat)
    (param_dict : list (string * tf.ndarray)) (strict : bool) : M unit :=
  var_list ← Widget_get_trainable_variables self;
  let var_dict := var_dict_of var_list in
  set_parameters_loop var_dict param_dict strict.

(** ** The constructors of the classes with a padding or pooling mode *)

Definition bad_input_size : exn :=
  ValueError "input_size should be tuple or list with 3 elements.".

(** [input_size[i]] *)
Definition item (input_size : size_arg) (i : nat) : M Z :=
  match input_size with
  | Scalar _ => raise (TypeError "'int' object is not subscriptable")
  | Seq l =>
      match l !! i with
      | Some z => mret z
      | None => raise IndexError
      end
  end.

(** [Conv2D.__init__] *)
Definition Conv2D___init__ (name : object) (input_size : size_arg)
    (output_channels filter_height filter_width stride_height stride_width : Z)
    (padding : string) (flat_output : bool) : M nat :=
  match input_size with
  | Seq [input_height; input_width; input_channels] =>
      '(output_height, output_width) ←
        (if String.eqb padding "SAME" then
           h ← lift (ceil_div input_height stride_height);
           w ← lift (ceil_div input_width stride_width);
           mret (h, w)
         else
           h ← lift (ceil_div (input_height - filter_height + 1) stride_height);
           w ← lift (ceil_div (input_width - filter_width + 1) stride_width);
           mret (h, w));
      let flat_size := (output_height * output_width * output_channels)%Z in
      Widget___init__
        (OfConv2D (Conv2D.Make input_height input_width input_channels
                     output_channels filter_height filter_width stride_height
                     stride_width padding flat_output output_height output_width
                     flat_size None None))
        name true
  | _ => raise bad_input_size
  end.

Definition dquote : string := String (ascii_of_nat 34) EmptyString.

Definition bad_pool_type (pool_type : string) : exn :=
  ValueError ("pool_type should be one of {" ++ dquote ++ "max" ++ dquote ++ ", "
              ++ dquote ++ "avg" ++ dquote ++ "}, but got " ++ pool_type).

(** [Pool2D.__init__] *)
Definition Pool2D___init__ (name : object) (input_size : size_arg)
    (filter_height filter_width stride_height stride_width : Z)
    (padding pool_type : string) : M nat :=
  let pool_type := lower pool_type in
  if negb (String.eqb pool_type "max" || String.eqb pool_type "avg")
  then raise (bad_pool_type pool_type)
  else
    input_height ← item input_size 0;
    input_width ← item input_size 1;
    input_channels ← item input_size 2;
    '(output_height, output_width) ←
      (if String.eqb padding "SAME" then
         h ← lift (ceil_div input_height stride_height);
         w ← lift (ceil_div input_width stride_width);
         mret (h, w)
       else
         h ← lift (ceil_div (input_height - filter_height + 1) stride_height);
         w ← lift (ceil_div (input_width - filter_width + 1) stride_width);
         mret (h, w));
    let flat_size := (output_height * output_width * input_channels)%Z in
    Widget___init__
      (OfPool2D (Pool2D.Make
                   match input_size with Seq l => l | Scalar _ => [] end
                   filter_height filter_width stride_height stride_width
                   padding pool_type input_height input_width input_channels
                   output_height output_width flat_size))
      name true.

(** [GroupConv2D.__init__] *)
Definition GroupConv2D___init__ (name : object) (input_size : size_arg)
    (output_channels num_groups filter_height filter_width
     stride_height stride_width : Z)
    (padding data_format : string) (flat_output : bool) : M nat :=
  match input_size with
  | Seq [input_height; input_width; input_channels] =>
      '(output_height, output_width) ←
        (if String.eqb padding "SAME" then
           h ← lift (ceil_div input_height stride_height);
           w ← lift (ceil_div input_width stride_width);
           mret (h, w)
         else
           h ← lift (ceil_div (input_height - filter_height + 1) stride_height);
           w ← lift (ceil_div (input_width - filter_width + 1) stride_width);
           mret (h, w));
      let flat_size := (output_height * output_width * output_channels)%Z in
      Widget___init__
        (OfGroupConv2D
           (GroupConv2D.Make input_height input_width input_channels
              output_channels num_groups filter_height filter_width
              stride_height stride_width data_format padding flat_output
              output_height output_width flat_size None None))
        name true
  | _ => raise bad_input_size
  end.

(** The remaining constructors store their arguments and call
    [Widget.__init__]. *)

Definition Linear___init__ (name : object) (input_size output_size : Z)
    (with_bias : bool) : M nat :=
  Widget___init__
    (OfLinear (Linear.Make input_size output_size with_bias None None)) name true.

Definition GRUCell___init__ (name : object) (input_size state_size : Z)
    (with_bias : bool) (activation : option (tf.tensor -> tf.tensor)) : M nat :=
  Widget___init__
    (OfGRUCell (GRUCell.Make input_size state_size with_bias activation
                  None None None None None None None None None))
    name true.

Definition LSTMCell___init__ (name : object) (input_size state_size : Z)
    (with_bias : bool) (activation : option (tf.tensor -> tf.tensor)) : M nat :=
  Widget___init__
    (OfLSTMCell (LSTMCell.Make input_size state_size with_bias activation
                   None None None None None None None None None None None None))
    name true.

(** [Gate.__init__]: a single size stands for a one-element tuple. *)
Definition Gate___init__ (name : object) (input_sizes : size_arg)
    (output_size : Z) : M nat :=
  let input_sizes :=
    match input_sizes with
    | Seq l => l
    | Scalar z => [z]
    end in
  Widget___init__ (OfGate (Gate.Make input_sizes output_size None None)) name true.

(** ** Unrolling a recurrent cell *)

Section Recursive.

(** [operations.setup] and [operations.transpose_sequence] live in a
    sibling module of the package; the unrolling only passes values
    through them. *)
Variable operations_setup : tf.tensor -> option (list nat) -> M tf.tensor.
Variable operations_transpose_sequence : tf.tensor -> string -> M tf.tensor.

Definition both_none_error : exn :=
  ValueError "init_state and init_input should not be None at the same time.".

(** [GRUCell.setup_recursive].  [tf.scan] calls the step function once,
    on placeholders for the accumulated pair, to wire the loop body. *)
Definition GRUCell_setup_recursive (self : nat) (max_len : tf.tensor)
    (input_widgets output_widgets : option (list nat))
    (init_state init_input : option tf.tensor) : M (tf.tensor * tf.tensor) :=
  match init_state, init_input with
  | None, None => raise both_none_error
  | _, _ =>
      w ← get_obj self;
      cell ← match attrs w with
             | OfGRUCell c => mret c
             | _ => raise (AttributeError "state_size")
             end;
      let init_state :=
        match init_state with
        | Some s => s
        | None =>
            let batch_size :=
              match init_input with
              | Some i => tf.ShapeOf i 0
              | None => tf.Nil
              end in
            tf.Zeros (Some "init_state")
              (tf.Tuple batch_size (tf.Dim (GRUCell._state_size cell)))
        end in
      let init_input :=
        match init_input with
        | Some i => i
        | None =>
            tf.Zeros (Some "init_input")
              (tf.Tuple (tf.ShapeOf init_state 0)
                 (tf.Dim (GRUCell._input_size cell)))
        end in
      let prev_state := tf.Input "scan/prev_state" in
      let prev_output := tf.Input "scan/prev_output" in
      cell_input ← operations_setup prev_output input_widgets;
      r ← Widget_setup self [cell_input; prev_state];
      state ← match r with
              | tf.One s => mret s
              | _ => raise (TypeError "step function must return a tensor")
              end;
      output ← operations_setup state output_widgets;
      let scanned :=
        tf.Scan (tf.Tuple state output) (tf.Zeros None max_len)
          (tf.Tuple init_state init_input) in
      states ← operations_transpose_sequence (tf.Item scanned 0) "states";
      outputs ← operations_transpose_sequence (tf.Item scanned 1) "outputs";
      mret (states, outputs)
  end.

End Recursive.

(** ** What the graph terms of the recurrent cells denote *)

Section Semantics.

(** Values of tensors and the framework's operations on them. *)
Variable T : Type.
Variables matmul add sub mul : T -> T -> T.
Variables sigmoid tanh relu : T -> T.
Variable const : Q -> T.
Variables input var : string -> T.

Definition lift2 (f : T -> T -> T) (a b : option T) : option T :=
  match a, b with
  | Some a, Some b => Some (f a b)
  | _, _ => None
  end.

(** The value of a node of the recurrent fragment; [name=] arguments do
    not change it. *)
Fixpoint eval (t : tf.tensor) : option T :=
  match t with
  | tf.Input n => Some (input n)
  | tf.Var n => Some (var n)
  | tf.Const q => Some (const q)
  | tf.MatMul a b => lift2 matmul (eval a) (eval b)
  | tf.Add _ a b => lift2 add (eval a) (eval b)
  | tf.Sub a b => lift2 sub (eval a) (eval b)
  | tf.Mul _ a b => lift2 mul (eval a) (eval b)
  | tf.Sigmoid _ a => option_map sigmoid (eval a)
  | tf.Tanh a => option_map tanh (eval a)
  | tf.Relu a => option_map relu (eval a)
  | _ => None
  end.

(** A graph-building activation [f] computes the function [act]. *)
Definition denotes (f : option (tf.tensor -> tf.tensor)) (act : T -> T) : Prop :=
  match f with
  | Some f => forall t v, eval t = Some v -> eval (f t) = Some (act v)
  | None => forall v, act v = v
  end.

(** [x W + h U [+ b]] *)
Definition affine (x W h U : T) (b : option T) : T :=
  match b with
  | Some b => add (add (matmul x W) (matmul h U)) b
  | None => add (matmul x W) (matmul h U)
  end.

(** The GRU recurrence as published: update gate, reset gate, candidate
    and new state. *)
Definition published_gru (act : T -> T) (x h_prev : T)
    (Wz Uz Wr Ur Wh Uh : T) (bz br bh : option T) : T :=
  let z := sigmoid (affine x Wz h_prev Uz bz) in
  let r := sigmoid (affine x Wr h_prev Ur br) in
  let h_cand := act (affine x Wh (mul r h_prev) Uh bh) in
  add (mul z h_prev) (mul (sub (const 1) z) h_cand).

(** The LSTM recurrence as published: the new cell state and the new
    output state. *)
Definition published_lstm (act : T -> T) (x c_prev h_prev : T)
    (Wi Ui Wf Uf Wo Uo Wc Uc : T) (bi bf bo bc : option T) : T * T :=
  let i := sigmoid (affine x Wi h_prev Ui bi) in
  let f := sigmoid (affine x Wf h_prev Uf bf) in
  let o := sigmoid (affine x Wo h_prev Uo bo) in
  let c_cand := act (affine x Wc h_prev Uc bc) in
  let c := add (mul f c_prev) (mul i c_cand) in
  (c, mul o (act c)).

End Semantics.

(** ** Notions used to state the properties *)

(** [n] is the ceiling of [q]: the least integer that is not below it. *)
Definition is_ceil (q : Q) (n : Z) : Prop :=
  (q <= inject_Z n)%Q /\ forall m : Z, (q <= inject_Z m)%Q -> (n <= m)%Z.

(** A name that [Widget.__init__] has to reject: not a string, empty, or
    different from its stripped form. *)
Definition malformed (name : object) : Prop :=
  match name with
  | None_ => False
  | Str s => s = "" \/ strip s <> s
  | _ => True
  end.

(** The enclosing scope joined with the name. *)
Definition qualified (scope n : string) : string :=
  if String.eqb scope "" then n
  else if endswith_slash scope then scope ++ n
  else scope ++ "/" ++ n.

(** The exception of an outcome, if any. *)
Definition raised {A} (o : outcome A) : option exn :=
  match o with
  | Raise e => Some e
  | Return _ => None
  end.

(** Two states that differ at most in the collection of variables. *)
Definition same_but_variables (st st' : world) : Prop :=
  variable_scope st' = variable_scope st /\ session st' = session st /\
  INSTANCES st' = INSTANCES st /\ objects st' = objects st /\
  next_ref st' = next_ref st.

(** ** Concrete worlds used as examples *)

(** A pooling layer "p" built in the empty world. *)
Definition world_with_p : world :=
  snd (Pool2D___init__ (Str "p") (Seq [4; 4; 1]%Z) 3 3 2 2 "SAME" "max" empty_world).

(** A linear layer allocated under the name "q", respectively "p", next to
    the pooling layer, and not built yet: the state in which a constructor
    calls [build]. *)
Definition world_with_unbuilt_q : world :=
  snd (Widget___init__ (OfLinear (Linear.Make 3 2 true None None)) (Str "q") false
         world_with_p).

Definition world_with_unbuilt_p : world :=
  snd (Widget___init__ (OfLinear (Linear.Make 3 2 true None None)) (Str "p") false
         world_with_p).

(** A linear layer "l" with its two parameters, and next to it a widget
    constructed with [name=None] and [build=False]. *)
Definition world_with_l : world :=
  snd (Linear___init__ (Str "l") 3 2 true empty_world).

Definition world_with_unnamed : world :=
  snd (Widget___init__ Base None_ false world_with_l).

(** A parameter dictionary for "l" with a key that names no variable. *)
Definition params_with_bogus_key : list (string * tf.ndarray) :=
  [("l/w:0", [1; 2; 3; 4; 5; 6]%Z); ("bogus", [7]%Z); ("l/b:0", [8; 9]%Z)].

(** The output extent along one axis as the specification gives it:
    the ceiling of input over stride for "SAME" padding, and of
    (input - filter + 1) over stride for any other padding. *)
Definition spec_output_size (padding : string) (input filter stride output : Z) : Prop :=
  if String.eqb padding "SAME"
  then is_ceil (inject_Z input / inject_Z stride) output
  else is_ceil (inject_Z (input - filter + 1) / inject_Z stride) output.

(** Constructor calls used as examples: a convolution over a 28 x 28 x 1
    input with stride 2, with a padding of "SAME", "VALID" and "FOO". *)
Definition conv_c (padding : string) : M nat :=
  Conv2D___init__ (Str "c") (Seq [28; 28; 1]%Z) 8 3 3 2 2 padding false.

Definition pool_c (padding : string) : M nat :=
  Pool2D___init__ (Str "c") (Seq [28; 28; 1]%Z) 3 3 2 2 padding "max".

Definition group_c (padding : string) : M nat :=
  GroupConv2D___init__ (Str "c") (Seq [28; 28; 4]%Z) 8 2 3 3 2 2 padding "NHWC" false.

(** A gate with two inputs, of sizes 2 and 3, built in the empty world. *)
Definition world_with_gate : world :=
  snd (Gate___init__ (Str "g") (Seq [2; 3]%Z) 4 empty_world).

(** An LSTM cell "lstm" without biases and with the default activation,
    built in the empty world. *)
Definition world_with_lstm : world :=
  snd (LSTMCell___init__ (Str "lstm") 1 1 false (Some tf.Tanh) empty_world).


(** ** The remaining accessors of [Widget] *)

(** [session.run(param_dict)]: the current value of every variable of the
    dictionary.  A variable that holds no value makes the framework
    raise. *)
Definition session_run (param_dict : gmap string tf.variable)
    : M (gmap string tf.ndarray) :=
  fun st =>
    if bool_decide (map_Forall (fun _ var => is_Some (session st !! tf.name var))
                      param_dict)
    then (Return (omap (fun var => session st !! tf.name var) param_dict), st)
    else (Raise (RuntimeError "Attempting to use uninitialized value"), st).

(** [Widget.get_parameters] *)
Definition Widget_get_parameters (self : nat) : M (gmap string tf.ndarray) :=
  var_list ← Widget_get_trainable_variables self;
  let param_dict := var_dict_of var_list in
  session_run param_dict.

(** [name.rfind(':') == -1] fails exactly when the name has a colon. *)
Fixpoint has_colon (s : string) : bool :=
  match s with
  | EmptyString => false
  | String c s' => Ascii.eqb c ":" || has_colon s'
  end.

(** [Widget.get_variable]: the formatted name tolerates a prefix of
    [None], the concatenation does not. *)
Definition Widget_get_variable (self : nat) (name : string)
    : M (option tf.variable) :=
  w ← get_obj self;
  name ← (if negb (has_colon name)
          then mret (str (_prefix w) ++ name ++ ":0")
          else match _prefix w with
               | Some p => mret (p ++ name)
               | None => raise (TypeError "unsupported operand type(s) for +: 'NoneType' and 'str'")
               end);
  global_vars ← tf_global_variables;
  mret (List.find (fun var => String.eqb name (tf.name var)) global_vars).

(** What an attribute looked up by name can be: a widget of the registry,
    a tensor of the graph, or [None]. *)
Inductive attribute : Type :=
| Instance (r : nat)
| TensorOf (t : tf.tensor)
| NoAttribute.

Section Graph.

(** [tf.get_default_graph().get_tensor_by_name]: the graph's own lookup,
    which raises a [KeyError] for a name it does not know. *)
Variable get_tensor_by_name : string -> M tf.tensor.

(** [try: return lookup except KeyError: return None] *)
Definition tensor_or_None (name : string) : M (option tf.tensor) :=
  fun st =>
    match get_tensor_by_name name st with
    | (Return t, st') => (Return (Some t), st')
    | (Raise (KeyError _), st') => (Return None, st')
    | (Raise e, st') => (Raise e, st')
    end.

(** [Widget.get_tensor] *)
Definition Widget_get_tensor (self : nat) (name : string) : M (option tf.tensor) :=
  w ← get_obj self;
  name ← (if negb (has_colon name)
          then mret (str (_prefix w) ++ name ++ ":0")
          else match _prefix w with
               | Some p => mret (p ++ name)
               | None => raise (TypeError "unsupported operand type(s) for +: 'NoneType' and 'str'")
               end);
  tensor_or_None name.

(** [Widget.__getattr__]: a widget registered under the prefixed name wins
    over a tensor of that name. *)
Definition Widget___getattr__ (self : nat) (name : string) : M attribute :=
  w ← get_obj self;
  name ← match _prefix w with
         | Some p => mret (p ++ name)
         | None => raise (TypeError "unsupported operand type(s) for +: 'NoneType' and 'str'")
         end;
  registry ← (fun st => (Return (INSTANCES st), st));
  match registry !! name with
  | Some r => mret (Instance r)
  | None =>
      let name := if negb (has_colon name) then name ++ ":0" else name in
      t ← tensor_or_None name;
      mret match t with
           | Some t => TensorOf t
           | None => NoAttribute
           end
  end.

(** [Widget.__getitem__] *)
Definition Widget___getitem__ (self : nat) (name : string) : M attribute :=
  Widget___getattr__ self name.

End Graph.

(** ** The shape arithmetic of [Conv2DTrans] *)

Module Conv2DTrans.
Record t : Type := Make {
  _output_height : Z;
  _output_width : Z;
  _output_channels : Z;
  _input_channels : Z;
  _filter_height : Z;
  _filter_width : Z;
  _stride_height : Z;
  _stride_width : Z;
  _data_format : string;
  _flat_input : bool;
  _input_height : Z;
  _input_width : Z;
  _flat_size : Z }.
End Conv2DTrans.

Definition bad_output_size : exn :=
  ValueError "output_size should be tuple or list with 3 elements.".

(** The attributes that [Conv2DTrans.__init__] stores before it hands over
    to [Widget.__init__]. *)
Definition Conv2DTrans_attributes (output_size : size_arg)
    (input_channels filter_height filter_width stride_height stride_width : Z)
    (data_format : string) (flat_input : bool) : outcome Conv2DTrans.t :=
  match output_size with
  | Seq [output_height; output_width; output_channels] =>
      match ceil_div output_height stride_height with
      | Raise e => Raise e
      | Return input_height =>
          match ceil_div output_width stride_width with
          | Raise e => Raise e
          | Return input_width =>
              Return (Conv2DTrans.Make output_height output_width output_channels
                        input_channels filter_height filter_width stride_height
                        stride_width data_format flat_input input_height
                        input_width (input_height * input_width * input_channels)%Z)
          end
      end
  | _ => Raise bad_output_size
  end.

(** ** Invariants of the interpreter state *)

(** A built widget has a name, a full name, and the full name followed by
    a slash as its prefix. *)
Definition built_widget_ok (w : widget) : Prop :=
  _built w = true ->
  exists n f, _name w = Some n /\ _full_name w = Some f /\
              _prefix w = Some (f ++ "/").

(** Every registered name leads to a built widget that carries this name
    as its full name, and references are allocated in order. *)
Definition world_ok (st : world) : Prop :=
  (forall r w, objects st !! r = Some w -> built_widget_ok w) /\
  (forall f r, INSTANCES st !! f = Some r ->
     exists w, objects st !! r = Some w /\ _built w = true /\ _full_name w = Some f) /\
  (forall r, (next_ref st <= r)%nat -> objects st !! r = None).

(** A hook started in [st] and stopped in [st'] has only added trainable
    variables, all named inside the scope of [st]. *)
Definition hook_step (st st' : world) : Prop :=
  same_but_variables st st' /\
  exists vs, variables st' = (variables st ++ vs)%list /\
    Forall (fun v => startswith (tf.name v) (tf.name_scope (variable_scope st)) = true
                     /\ tf.trainable v = true) vs.

(** Loading the items of a parameter dictionary into a session, in
    order. *)
Definition load_items (items : list (string * tf.ndarray))
    (s : gmap string tf.ndarray) : gmap string tf.ndarray :=
  foldl (fun s item => <[item.1 := item.2]> s) s items.

(** The state inside the [_build] hook of a widget "m" of a user-defined
    subclass: the widget has its prefix, and the scope is its full name. *)
Definition world_inside_m : world :=
  set_variable_scope "m" (snd (Widget___init__ Base (Str "m") true empty_world)).

(** A complete parameter dictionary for the linear layer "l". *)
Definition params_of_l : list (string * tf.ndarray) :=
  [("l/b:0", [8; 9]%Z); ("l/w:0", [1; 2; 3; 4; 5; 6]%Z)].
(** * Properties *)

Example strip_inner_space : strip "  ab c " = "ab c".
Proof. reflexivity. Qed.

Example ceil_div_rounds_up : ceil_div 7 2 = Return 4%Z.
Proof. reflexivity. Qed.

Example ceil_div_negative : ceil_div (-7) 2 = Return (-3)%Z.
Proof. reflexivity. Qed.

(** ** Stripping and lengths *)

Lemma lstrip_length s : (String.length (lstrip s) <= String.length s)%nat.
Proof.
  induction s as [|c s IH]; simpl; [lia|].
  destruct (isspace c); simpl; lia.
Qed.

Lemma lstrip_same_length s :
  String.length (lstrip s) = String.length s -> lstrip s = s.
Proof.
  destruct s as [|c s]; simpl; [done|].
  destruct (isspace c); [|done].
  pose proof (lstrip_length s). lia.
Qed.

Lemma rstrip_length s : (String.length (rstrip s) <= String.length s)%nat.
Proof.
  induction s as [|c s IH]; simpl; [lia|].
  destruct (rstrip s) as [|c' r]; [destruct (isspace c)|]; simpl in *; lia.
Qed.

Lemma rstrip_same_length s :
  String.length (rstrip s) = String.length s -> rstrip s = s.
Proof.
  induction s as [|c s IH]; simpl; [done|].
  pose proof (rstrip_length s) as Hle.
  destruct (rstrip s) as [|c' r] eqn:E.
  - destruct (isspace c); simpl in *; intros H.
    + lia.
    + destruct s; [done | simpl in *; lia].
  - simpl. intros H. f_equal. apply IH. simpl in *. lia.
Qed.

(** The length test of the constructor is a test for equality. *)
Lemma strip_same_length s :
  (len (strip s) =? len s)%Z = true <-> strip s = s.
Proof.
  unfold len, strip. rewrite Z.eqb_eq. split.
  - intros H. apply Nat2Z.inj in H.
    pose proof (rstrip_length (lstrip s)). pose proof (lstrip_length s).
    assert (Hl : lstrip s = s) by (apply lstrip_same_length; lia).
    rewrite Hl in *. by apply rstrip_same_length.
  - intros ->. done.
Qed.

Lemma name_check_spec s :
  negb (len (strip s) =? len s)%Z || String.eqb s "" = true
  <-> malformed (Str s).
Proof.
  simpl. rewrite orb_true_iff, negb_true_iff, String.eqb_eq.
  pose proof (strip_same_length s) as H.
  destruct (len (strip s) =? len s)%Z.
  - split; [intros [?|?]; [done | by left] | intros [?|Hne]; [by right|]].
    exfalso. apply Hne. by apply H.
  - split; [|by left]. intros _. right. intros E. apply H in E. done.
Qed.

(** ** Constructor-time validation of the name *)

Ltac unfold_M :=
  unfold mbind, M_bind, mret, M_ret, raise, lift, update, get_obj, set_obj in *.



(** ** Framing: what the hooks leave alone *)

Lemma same_but_variables_refl st : same_but_variables st st.
Proof. by repeat split. Qed.

Lemma same_but_variables_trans st1 st2 st3 :
  same_but_variables st1 st2 -> same_but_variables st2 st3 ->
  same_but_variables st1 st3.
Proof.
  intros (?&?&?&?&?) (?&?&?&?&?). repeat split; congruence.
Qed.

Lemma tf_Variable_frame local shape st :
  same_but_variables st (snd (tf_Variable local shape st)).
Proof. by repeat split. Qed.

Lemma bind_frame {A B} (c : M A) (k : A -> M B) st :
  same_but_variables st (snd (c st)) ->
  (forall a st', same_but_variables st' (snd (k a st'))) ->
  same_but_variables st (snd ((a ← c; k a) st)).
Proof.
  intros Hc Hk. unfold mbind, M_bind.
  destruct (c st) as [[a|e] st'] eqn:E; simpl in *; [|done].
  eapply same_but_variables_trans; [exact Hc | apply Hk].
Qed.

Ltac frame :=
  repeat first
    [ apply same_but_variables_refl
    | apply tf_Variable_frame
    | apply bind_frame; [| intros ? ?]
    | match goal with
      | |- same_but_variables _ (snd ((if ?b then _ else _) _)) => destruct b
      end ].

Lemma Gate__build_loop_frame input_sizes : forall i output_size w_list st,
  same_but_variables st (snd (Gate__build_loop i input_sizes output_size w_list st)).
Proof.
  induction input_sizes as [|z rest IH]; intros; simpl.
  - apply same_but_variables_refl.
  - apply bind_frame; [apply tf_Variable_frame | intros; apply IH].
Qed.

Lemma Gate__build_loop_returns input_sizes : forall i output_size w_list st,
  exists ws, fst (Gate__build_loop i input_sizes output_size w_list st) = Return ws.
Proof.
  induction input_sizes as [|z rest IH]; intros; simpl.
  - by eexists.
  - unfold mbind, M_bind. simpl. apply IH.
Qed.

Lemma _build_frame a st : same_but_variables st (snd (_build a st)).
Proof.
  destruct a as [|a|a|a|a|a|a|a]; simpl.
  - apply same_but_variables_refl.
  - unfold Linear__build. frame.
  - by repeat split.
  - by repeat split.
  - unfold GroupConv2D__build, floor_div, lift.
    apply bind_frame; [|intros; apply same_but_variables_refl].
    apply bind_frame; [destruct (_ =? _)%Z; apply same_but_variables_refl|intros].
    frame.
  - unfold GRUCell__build.
    apply bind_frame; [|intros; apply same_but_variables_refl]. frame.
  - unfold LSTMCell__build.
    apply bind_frame; [|intros; apply same_but_variables_refl]. frame.
  - unfold Gate__build.
    apply bind_frame; [|intros; apply same_but_variables_refl].
    apply bind_frame; [apply Gate__build_loop_frame|intros]. frame.
Qed.

(** Whether a hook raises, and what, does not depend on the state. *)
Lemma _build_raised a st st' :
  raised (fst (_build a st)) = raised (fst (_build a st')).
Proof.
  destruct a as [|a|a|a|a|a|a|a]; simpl; try done.
  - unfold Linear__build, mbind, M_bind; simpl. by destruct (Linear._with_bias a).
  - unfold GroupConv2D__build, floor_div, lift, mbind, M_bind; simpl.
    by destruct (_ =? _)%Z.
  - unfold GRUCell__build, mbind, M_bind; simpl. by destruct (GRUCell._with_bias a).
  - unfold LSTMCell__build, mbind, M_bind; simpl. by destruct (LSTMCell._with_bias a).
  - unfold Gate__build, mbind, M_bind.
    destruct (Gate__build_loop_returns (Gate._input_sizes a) 0 (Gate._output_size a) [] st) as [ws E].
    destruct (Gate__build_loop_returns (Gate._input_sizes a) 0 (Gate._output_size a) [] st') as [ws' E'].
    destruct (Gate__build_loop _ _ _ _ st) as [o s1], (Gate__build_loop _ _ _ _ st') as [o' s1'].
    simpl in *. by subst.
Qed.

Lemma update_run self f st w :
  objects st !! self = Some w ->
  update self f st = (Return tt, set_objects (<[self := f w]> (objects st)) st).
Proof. intros H. unfold update, get_obj, set_obj, mbind, M_bind. by rewrite H. Qed.

Lemma bind_return {A B} (c : M A) (k : A -> M B) st a st' :
  c st = (Return a, st') -> (c ≫= k) st = k a st'.
Proof. intros H. unfold mbind, M_bind. by rewrite H. Qed.

Lemma bind_raise {A B} (c : M A) (k : A -> M B) st e st' :
  c st = (Raise e, st') -> (c ≫= k) st = (Raise e, st').
Proof. intros H. unfold mbind, M_bind. by rewrite H. Qed.

Lemma objects_set_objects h st : objects (set_objects h st) = h.
Proof. done. Qed.

Lemma set_objects_twice h h' st : set_objects h (set_objects h' st) = set_objects h st.
Proof. done. Qed.

Lemma full_name_run (scope : string) (o : option string) n (st : world) :
  o = Some n ->
  (if String.eqb scope "" then mret o
   else if endswith_slash scope then
     match o with
     | Some n => mret (Some (scope ++ n))
     | None => raise (TypeError "must be str, not NoneType")
     end
   else mret (Some (scope ++ "/" ++ str o))) st
  = (Return (Some (qualified scope n)), st).
Proof.
  intros ->. unfold qualified. simpl.
  destruct (String.eqb scope ""); [done|]. by destruct (endswith_slash scope).
Qed.

Lemma Widget_build_unbuilt self st w n :
  objects st !! self = Some w -> _built w = false -> _name w = Some n ->
  let scope := variable_scope st in
  let full := qualified scope n in
  let w1 := with_prefix (Some (full ++ "/"))
              (with_full_name (Some full) (with_scope scope w)) in
  let st1 := set_variable_scope (tf.nested_scope scope n)
               (set_objects (<[self := w1]> (objects st)) st) in
  Widget_build self st =
  match _build (attrs w) st1 with
  | (Raise e, st2) => (Raise e, set_variable_scope scope st2)
  | (Return a, st2) =>
      let st3 := set_variable_scope scope
                   (set_objects (<[self := with_built true (with_attrs a w1)]>
                                   (objects st)) st2) in
      match INSTANCES st !! full with
      | Some _ => (Raise (duplicate_error full), st3)
      | None => (Return self, set_INSTANCES (<[full := self]> (INSTANCES st)) st3)
      end
  end.
Proof.
  intros Hw Hb Hn scope full w1 st1.
  unfold Widget_build.
  unfold mbind at 1. unfold M_bind at 1. unfold get_obj at 1. rewrite Hw, Hb.
  unfold mbind at 1. unfold M_bind at 1. unfold get_variable_scope_name at 1.
  erewrite bind_return; [|by apply update_run].
  erewrite bind_return; cycle 1.
  { by apply full_name_run. }
  erewrite bind_return; cycle 1.
  { apply update_run. rewrite objects_set_objects. apply lookup_insert_eq. }
  erewrite bind_return; cycle 1.
  { apply update_run. rewrite objects_set_objects. apply lookup_insert_eq. }
  rewrite !objects_set_objects, !set_objects_twice, !insert_insert_eq.
  rewrite Hn. unfold with_variable_scope.
  unfold mbind at 1. unfold M_bind at 1.
  unfold mbind at 1. unfold M_bind at 1.
  match goal with |- context [ _build (attrs w) ?s ] => change s with st1 end.
  pose proof (_build_frame (attrs w) st1) as (Hsc & Hse & Hin & Hob & Hnx).
  destruct (_build (attrs w) st1) as [[a|e] st2]; simpl in Hsc, Hse, Hin, Hob, Hnx.
  2: { done. }
  assert (E : (update self (with_attrs a) ≫= λ _ : (), update self (with_built true)) st2
              = (Return tt, set_objects (<[self := with_built true (with_attrs a w1)]>
                                           (objects st)) st2)).
  { erewrite bind_return; cycle 1.
    { apply update_run. rewrite Hob. apply lookup_insert_eq. }
    erewrite update_run; cycle 1.
    { rewrite objects_set_objects. apply lookup_insert_eq. }
    by rewrite objects_set_objects, set_objects_twice, Hob, !insert_insert_eq. }
  rewrite E. unfold mbind, M_bind. simpl. rewrite Hin. fold scope. fold full.
  by destruct (INSTANCES st !! full).
Qed.

Lemma Widget_build_unnamed self st w :
  objects st !! self = Some w -> _built w = false -> _name w = None ->
  exists msg st', Widget_build self st = (Raise (TypeError msg), st').
Proof.
  intros Hw Hb Hn. unfold Widget_build.
  unfold mbind at 1. unfold M_bind at 1. unfold get_obj at 1. rewrite Hw, Hb.
  unfold mbind at 1. unfold M_bind at 1. unfold get_variable_scope_name at 1.
  erewrite bind_return; [|by apply update_run].
  rewrite Hn.
  destruct (String.eqb (variable_scope st) "") eqn:E1;
    [|destruct (endswith_slash (variable_scope st)) eqn:E2].
  - erewrite bind_return; [|done].
    erewrite bind_return; cycle 1.
    { apply update_run. rewrite objects_set_objects. apply lookup_insert_eq. }
    by eexists _, _.
  - by eexists _, _.
  - erewrite bind_return; [|done].
    erewrite bind_return; cycle 1.
    { apply update_run. rewrite objects_set_objects. apply lookup_insert_eq. }
    erewrite bind_return; cycle 1.
    { apply update_run. rewrite objects_set_objects. apply lookup_insert_eq. }
    by eexists _, _.
Qed.

(** The hooks raise nothing but these two exceptions. *)
Lemma _build_raises_only a st e :
  raised (fst (_build a st)) = Some e ->
  e = NotImplementedError \/ e = ZeroDivisionError.
Proof.
  destruct a as [|a|a|a|a|a|a|a]; simpl.
  - intros [= <-]. by left.
  - unfold Linear__build, mbind, M_bind; simpl. by destruct (Linear._with_bias a).
  - done.
  - done.
  - unfold GroupConv2D__build, floor_div, lift, mbind, M_bind; simpl.
    destruct (_ =? _)%Z; simpl; [|done]. intros [= <-]. by right.
  - unfold GRUCell__build, mbind, M_bind; simpl. by destruct (GRUCell._with_bias a).
  - unfold LSTMCell__build, mbind, M_bind; simpl. by destruct (LSTMCell._with_bias a).
  - unfold Gate__build, mbind, M_bind.
    destruct (Gate__build_loop_returns (Gate._input_sizes a) 0 (Gate._output_size a) [] st) as [ws E].
    destruct (Gate__build_loop _ _ _ _ st) as [o s1]. simpl in *. by subst.
Qed.

(** ** The build life cycle and the registry *)

Lemma Widget_build_on_built_is_return self st w :
  objects st !! self = Some w -> _built w = true ->
  Widget_build self st = (Return self, st).
Proof.
  intros Hw Hb. unfold Widget_build, mbind, M_bind, get_obj. by rewrite Hw, Hb.
Qed.

(** C4.  Building a widget that is already built returns the widget at
    once: no hook runs, no scope is entered, and neither the variables nor
    the registry nor the widget change. *)
Theorem Widget_build_on_built_widget_is_noop (self : nat) (st : world) (w : widget) :
  objects st !! self = Some w -> _built w = true ->
  Widget_build self st = (Return self, st).
Proof.
  intros Hw Hb. unfold Widget_build, mbind, M_bind, get_obj. by rewrite Hw, Hb.
Qed.

Lemma Widget_build_on_built_widget_witness :
  Widget_build 0 world_with_p = (Return 0, world_with_p).
Proof.
  eapply Widget_build_on_built_widget_is_noop; [vm_compute; reflexivity | reflexivity].
Defined.




(** C3, as stated, fails: when the duplicate-name error is raised for the
    second widget named "p", its two parameters are in the graph and the
    widget is marked as built. *)
Lemma duplicate_error_after_parameters_created :
  fst (Widget_build 1 world_with_unbuilt_p) = Raise (duplicate_error "p") /\
  variables world_with_unbuilt_p = [] /\
  variables (snd (Widget_build 1 world_with_unbuilt_p)) =
    [tf.MkVariable "p/w:0" true [3; 2]%Z; tf.MkVariable "p/b:0" true [2]%Z] /\
  (_built <$> objects world_with_unbuilt_p !! 1) = Some false /\
  (_built <$> objects (snd (Widget_build 1 world_with_unbuilt_p)) !! 1) = Some true.
Proof. vm_compute. repeat split; reflexivity. Qed.

(** C3, amended.  When [build] raises the duplicate-name error the registry
    is unchanged; the check comes after the hook, so the hook has run in
    the widget's scope, the variables it created are in the graph, and the
    widget carries the hook's attributes and is marked as built. *)
Theorem duplicate_error_leaves_registry_unchanged
    (self : nat) (st : world) (f : string) :
  fst (Widget_build self st) = Raise (duplicate_error f) ->
  INSTANCES (snd (Widget_build self st)) = INSTANCES st /\
  exists w n a st2 w',
    objects st !! self = Some w /\ _name w = Some n /\
    let full := qualified (variable_scope st) n in
    let w1 := with_prefix (Some (full ++ "/"))
                (with_full_name (Some full) (with_scope (variable_scope st) w)) in
    _build (attrs w)
      (set_variable_scope (tf.nested_scope (variable_scope st) n)
         (set_objects (<[self := w1]> (objects st)) st)) = (Return a, st2) /\
    variables (snd (Widget_build self st)) = variables st2 /\
    objects (snd (Widget_build self st)) !! self = Some w' /\
    _built w' = true /\ attrs w' = a.
Proof.
  intros H.
  destruct (objects st !! self) as [w|] eqn:Hw; cycle 1.
  { unfold Widget_build, mbind, M_bind, get_obj in H. by rewrite Hw in H. }
  destruct (_built w) eqn:Hb.
  { by rewrite (Widget_build_on_built_is_return self st w Hw Hb) in H. }
  destruct (_name w) as [n|] eqn:Hn; cycle 1.
  { destruct (Widget_build_unnamed self st w Hw Hb Hn) as (msg & st' & E).
    by rewrite E in H. }
  revert H. rewrite (Widget_build_unbuilt self st w n Hw Hb Hn).
  set (st1 := set_variable_scope _ _).
  destruct (_build (attrs w) st1) as [[a|e] st2] eqn:Ehook.
  - destruct (INSTANCES st !! qualified (variable_scope st) n) eqn:Ereg; [|done].
    intros _. simpl.
    pose proof (_build_frame (attrs w) st1) as (_ & _ & Hin & _ & _).
    rewrite Ehook in Hin. split; [done|].
    exists w, n, a, st2, (with_built true (with_attrs a
      (with_prefix (Some (qualified (variable_scope st) n ++ "/"))
         (with_full_name (Some (qualified (variable_scope st) n))
            (with_scope (variable_scope st) w))))).
    repeat split; try done. apply lookup_insert_eq.
  - simpl. intros [= ->].
    destruct (_build_raises_only (attrs w) st1 (duplicate_error f)) as [E|E];
      [by rewrite Ehook | done | done].
Qed.

Lemma duplicate_error_leaves_registry_unchanged_witness :
  INSTANCES (snd (Widget_build 1 world_with_unbuilt_p)) = INSTANCES world_with_unbuilt_p.
Proof.
  refine (proj1 (duplicate_error_leaves_registry_unchanged
                   1 world_with_unbuilt_p "p" _)).
  vm_compute. reflexivity.
Defined.

(** ** Access to the parameters *)

(** C10.  For a widget whose name is [None], [get_variables] and
    [get_trainable_variables] return the empty list and touch nothing,
    whatever variables the graph holds. *)
Theorem unnamed_widget_has_no_variables (self : nat) (st : world) (w : widget) :
  objects st !! self = Some w -> _name w = None ->
  Widget_get_variables self st = (Return [], st) /\
  Widget_get_trainable_variables self st = (Return [], st).
Proof.
  intros Hw Hn.
  unfold Widget_get_variables, Widget_get_trainable_variables, mbind, M_bind, get_obj.
  by rewrite Hw, Hn.
Qed.

Lemma unnamed_widget_has_no_variables_witness :
  length (variables world_with_unnamed) = 2%nat /\
  Widget_get_variables 1 world_with_unnamed = (Return [], world_with_unnamed) /\
  Widget_get_trainable_variables 1 world_with_unnamed = (Return [], world_with_unnamed).
Proof.
  split; [vm_compute; reflexivity|].
  eapply unnamed_widget_has_no_variables; [vm_compute; reflexivity | reflexivity].
Defined.

(** The dictionary built from a list of variables knows exactly their
    names. *)
Lemma var_dict_fold_None (l : list tf.variable) : forall (d : gmap string tf.variable) k,
  foldl (fun d var => <[tf.name var := var]> d) d l !! k = None
  <-> d !! k = None /\ k ∉ (tf.name <$> l).
Proof.
  induction l as [|v l IH]; intros d k; simpl.
  - split; [intros H; split; [done | apply not_elem_of_nil] | by intros [? _]].
  - rewrite IH, lookup_insert_None, not_elem_of_cons. intuition congruence.
Qed.

Lemma var_dict_of_None l k :
  var_dict_of l !! k = None <-> k ∉ (tf.name <$> l).
Proof.
  unfold var_dict_of. rewrite var_dict_fold_None, lookup_empty. tauto.
Qed.

(** The loop stops at the first key that is not in the dictionary, having
    loaded the values before it and none after it. *)
Lemma set_parameters_loop_unknown_key d strict k v post :
  d !! k = None ->
  forall pre st,
    Forall (fun item => d !! item.1 <> None) pre ->
    fst (set_parameters_loop d pre strict st) = Return tt /\
    set_parameters_loop d (pre ++ (k, v) :: post)%list strict st =
    (Raise (if strict then ValueError (k ++ " is not in this model.") else KeyError k),
     snd (set_parameters_loop d pre strict st)).
Proof.
  intros Hk pre. induction pre as [|[k' v'] pre IH]; intros st Hpre; simpl.
  - split; [done|]. unfold mbind, M_bind, raise. rewrite Hk.
    rewrite bool_decide_eq_true_2 by done. by destruct strict.
  - inversion Hpre as [|? ? Hk' Hrest]; subst. simpl in Hk'.
    unfold mbind, M_bind. destruct (d !! k') as [var|] eqn:E; [|done].
    rewrite bool_decide_eq_false_2 by done. simpl.
    apply (IH _ Hrest).
Qed.

(** A dictionary with an unknown key has a first unknown key. *)
Lemma first_unknown_key (d : gmap string tf.variable) (items : list (string * tf.ndarray)) :
  (exists k v, (k, v) ∈ items /\ d !! k = None) ->
  exists pre k v post,
    items = (pre ++ (k, v) :: post)%list /\ d !! k = None /\
    Forall (fun item => d !! item.1 <> None) pre.
Proof.
  induction items as [|[k0 v0] items IH]; intros (k & v & Hin & Hk).
  - by apply elem_of_nil in Hin.
  - destruct (d !! k0) as [var|] eqn:E0.
    + apply elem_of_cons in Hin as [[= -> ->]|Hin]; [congruence|].
      destruct IH as (pre & k1 & v1 & post & -> & Hk1 & Hpre); [by eauto|].
      exists ((k0, v0) :: pre), k1, v1, post. split; [done|]. split; [done|].
      constructor; [simpl; congruence | done].
    + exists [], k0, v0, items. by repeat split.
Qed.



Example set_parameters_stops_at_bogus_key :
  forall strict,
    fst (Widget_set_parameters 0 params_with_bogus_key strict world_with_l) =
      Raise (if strict then ValueError "bogus is not in this model." else KeyError "bogus") /\
    map_to_list (session (snd (Widget_set_parameters 0 params_with_bogus_key strict
                                 world_with_l))) =
      [("l/w:0", [1; 2; 3; 4; 5; 6]%Z)].
Proof. intros []; vm_compute; split; reflexivity. Qed.

(** ** Shapes computed by the constructors *)

Lemma Qceiling_is_ceil q : is_ceil q (Qceiling q).
Proof.
  split; [apply Qle_ceiling|].
  intros m Hm. pose proof (Qceiling_lt q) as Hlt.
  assert (H : (inject_Z (Qceiling q - 1) < inject_Z m)%Q)
    by (eapply Qlt_le_trans; eassumption).
  rewrite <- Zlt_Qlt in H. lia.
Qed.

Lemma ceil_div_is_ceil a b n :
  ceil_div a b = Return n -> is_ceil (inject_Z a / inject_Z b) n.
Proof.
  unfold ceil_div. destruct (b =? 0)%Z; [done|]. intros [= <-].
  apply Qceiling_is_ceil.
Qed.

(** A constructor that returns has built its widget: the object it returns
    carries the attributes that the hook produced. *)
Lemma Widget_init_build_returns a name st self st' :
  Widget___init__ a name true st = (Return self, st') ->
  exists w' st_in st_out,
    objects st' !! self = Some w' /\ _built w' = true /\
    _build a st_in = (Return (attrs w'), st_out).
Proof.
  unfold Widget___init__.
  set (check := match name with None_ => _ | _ => _ end).
  unfold mbind at 1. unfold M_bind at 1.
  destruct (check st) as [[n|e] st0] eqn:Echeck; [|done].
  assert (st0 = st) as ->.
  { subst check. destruct name; simpl in Echeck; try done.
    - by injection Echeck.
    - destruct (_ || _); [done | by injection Echeck]. }
  clear Echeck check.
  unfold mbind at 1. unfold M_bind at 1. unfold alloc at 1.
  set (w0 := {| _name := n; _scope := ""; _full_name := None; _prefix := None;
                _built := false; attrs := a |}).
  set (sta := {| variable_scope := variable_scope st; variables := variables st;
                 session := session st; INSTANCES := INSTANCES st;
                 objects := <[next_ref st := w0]> (objects st);
                 next_ref := S (next_ref st) |}).
  assert (Hw : objects sta !! next_ref st = Some w0) by apply lookup_insert_eq.
  unfold mbind, M_bind.
  destruct n as [n|].
  - rewrite (Widget_build_unbuilt (next_ref st) sta w0 n Hw eq_refl eq_refl).
    set (st1 := set_variable_scope _ _).
    destruct (_build (attrs w0) st1) as [[a'|e] st2] eqn:Ehook; [|done].
    destruct (INSTANCES sta !! _); [done|].
    intros [= <- <-]. eexists _, st1, st2. simpl.
    split; [apply lookup_insert_eq|]. split; [done|]. exact Ehook.
  - destruct (Widget_build_unnamed (next_ref st) sta w0 Hw eq_refl eq_refl)
      as (msg & st'' & E).
    by rewrite E.
Qed.

Lemma Conv2D_hook_keeps_shape a st a' st' :
  _build (OfConv2D a) st = (Return a', st') ->
  exists c, a' = OfConv2D c /\
    Conv2D._output_height c = Conv2D._output_height a /\
    Conv2D._output_width c = Conv2D._output_width a.
Proof. simpl. intros [= <- <-]. by eexists. Qed.

Lemma Pool2D_hook_keeps_shape a st a' st' :
  _build (OfPool2D a) st = (Return a', st') ->
  exists c, a' = OfPool2D c /\
    Pool2D._output_height c = Pool2D._output_height a /\
    Pool2D._output_width c = Pool2D._output_width a.
Proof. simpl. intros [= <- <-]. by eexists. Qed.

Lemma GroupConv2D_hook_keeps_shape a st a' st' :
  _build (OfGroupConv2D a) st = (Return a', st') ->
  exists c, a' = OfGroupConv2D c /\
    GroupConv2D._output_height c = GroupConv2D._output_height a /\
    GroupConv2D._output_width c = GroupConv2D._output_width a.
Proof.
  simpl. unfold GroupConv2D__build, floor_div, lift, mbind, M_bind. simpl.
  destruct (_ =? _)%Z; [done|]. simpl. intros [= <- <-]. by eexists.
Qed.

(** The two extents computed by the three constructors. *)
Lemma output_extents_run padding ih iw fh fw sh sw st oh ow st' :
  (if String.eqb padding "SAME" then
     h ← lift (ceil_div ih sh); w ← lift (ceil_div iw sw); mret (h, w)
   else
     h ← lift (ceil_div (ih - fh + 1) sh);
     w ← lift (ceil_div (iw - fw + 1) sw); mret (h, w)) st
  = (Return (oh, ow), st') ->
  st' = st /\ spec_output_size padding ih fh sh oh /\ spec_output_size padding iw fw sw ow.
Proof.
  unfold spec_output_size, lift, mbind, M_bind, mret, M_ret.
  destruct (String.eqb padding "SAME").
  - destruct (ceil_div ih sh) as [h|] eqn:Eh; [|done].
    destruct (ceil_div iw sw) as [w|] eqn:Ew; [|done].
    intros [= <- <- <-]. split; [done|]. split; by apply ceil_div_is_ceil.
  - destruct (ceil_div (ih - fh + 1) sh) as [h|] eqn:Eh; [|done].
    destruct (ceil_div (iw - fw + 1) sw) as [w|] eqn:Ew; [|done].
    intros [= <- <- <-]. split; [done|]. split; by apply ceil_div_is_ceil.
Qed.



Example conv_same_28_stride_2 :
  (attrs <$> objects (snd (conv_c "SAME" empty_world)) !! 0) =
  Some (OfConv2D (Conv2D.Make 28 28 1 8 3 3 2 2 "SAME" false 14 14 1568
                    (Some (tf.Var "c/w:0")) (Some (tf.Var "c/b:0")))).
Proof. vm_compute. reflexivity. Qed.

Example conv_valid_28_stride_2 :
  (attrs <$> objects (snd (conv_c "VALID" empty_world)) !! 0) =
  Some (OfConv2D (Conv2D.Make 28 28 1 8 3 3 2 2 "VALID" false 13 13 1352
                    (Some (tf.Var "c/w:0")) (Some (tf.Var "c/b:0")))).
Proof. vm_compute. reflexivity. Qed.

(** ** Mode strings *)

(** How an unnamed, unbuilt widget fails to build depends on the scope
    only. *)
Lemma Widget_build_unnamed_error self st w :
  objects st !! self = Some w -> _built w = false -> _name w = None ->
  fst (Widget_build self st) =
  Raise (TypeError
           (if String.eqb (variable_scope st) ""
            then "unsupported operand type(s) for +: 'NoneType' and 'str'"
            else if endswith_slash (variable_scope st)
                 then "must be str, not NoneType"
                 else "If default_name is None then name_or_scope is required.")).
Proof.
  intros Hw Hb Hn. unfold Widget_build.
  unfold mbind at 1. unfold M_bind at 1. unfold get_obj at 1. rewrite Hw, Hb.
  unfold mbind at 1. unfold M_bind at 1. unfold get_variable_scope_name at 1.
  erewrite bind_return; [|by apply update_run].
  rewrite Hn.
  destruct (String.eqb (variable_scope st) "") eqn:E1;
    [|destruct (endswith_slash (variable_scope st)) eqn:E2].
  - erewrite bind_return; [|done].
    erewrite bind_return; cycle 1.
    { apply update_run. rewrite objects_set_objects. apply lookup_insert_eq. }
    done.
  - done.
  - erewrite bind_return; [|done].
    erewrite bind_return; cycle 1.
    { apply update_run. rewrite objects_set_objects. apply lookup_insert_eq. }
    erewrite bind_return; cycle 1.
    { apply update_run. rewrite objects_set_objects. apply lookup_insert_eq. }
    done.
Qed.

(** The outcome of a constructor depends on the subclass attributes only
    through the exception, if any, that the hook raises. *)
Lemma Widget_init_outcome a a' name st :
  (forall s s', raised (fst (_build a s)) = raised (fst (_build a' s'))) ->
  fst (Widget___init__ a name true st) = fst (Widget___init__ a' name true st).
Proof.
  intros Hhook. unfold Widget___init__.
  set (check := match name with None_ => _ | _ => _ end).
  unfold mbind at 1 4. unfold M_bind at 1 4.
  destruct (check st) as [[n|e] st0] eqn:Echeck; [|done].
  assert (st0 = st) as ->.
  { subst check. destruct name; simpl in Echeck; try done.
    - by injection Echeck.
    - destruct (_ || _); [done | by injection Echeck]. }
  clear Echeck check.
  unfold mbind at 1 3. unfold M_bind at 1 3. unfold alloc.
  set (w0 := {| _name := n; _scope := ""; _full_name := None; _prefix := None;
                _built := false; attrs := a |}).
  set (w0' := {| _name := n; _scope := ""; _full_name := None; _prefix := None;
                 _built := false; attrs := a' |}).
  set (sta := {| variable_scope := variable_scope st; variables := variables st;
                 session := session st; INSTANCES := INSTANCES st;
                 objects := <[next_ref st := w0]> (objects st);
                 next_ref := S (next_ref st) |}).
  set (sta' := {| variable_scope := variable_scope st; variables := variables st;
                  session := session st; INSTANCES := INSTANCES st;
                  objects := <[next_ref st := w0']> (objects st);
                  next_ref := S (next_ref st) |}).
  assert (Hw : objects sta !! next_ref st = Some w0) by apply lookup_insert_eq.
  assert (Hw' : objects sta' !! next_ref st = Some w0') by apply lookup_insert_eq.
  unfold mbind, M_bind.
  destruct n as [n|].
  - rewrite (Widget_build_unbuilt (next_ref st) sta w0 n Hw eq_refl eq_refl).
    rewrite (Widget_build_unbuilt (next_ref st) sta' w0' n Hw' eq_refl eq_refl).
    set (st1 := set_variable_scope _ _). set (st1' := set_variable_scope _ _).
    specialize (Hhook st1 st1'). simpl attrs.
    destruct (_build a st1) as [[b|e] st2], (_build a' st1') as [[b'|e'] st2'];
      simpl in Hhook; try done.
    + simpl. by destruct (INSTANCES st !! _).
    + by injection Hhook as ->.
  - pose proof (Widget_build_unnamed_error (next_ref st) sta w0 Hw eq_refl eq_refl) as E.
    pose proof (Widget_build_unnamed_error (next_ref st) sta' w0' Hw' eq_refl eq_refl) as E'.
    destruct (Widget_build (next_ref st) sta) as [o s2],
             (Widget_build (next_ref st) sta') as [o' s2'].
    simpl in E, E'. by subst.
Qed.

Lemma bind_outcome_ext {A B} (c : M A) (k k' : A -> M B) st :
  (forall a s, fst (k a s) = fst (k' a s)) ->
  fst ((c ≫= k) st) = fst ((c ≫= k') st).
Proof.
  intros H. unfold mbind, M_bind. destruct (c st) as [[a|e] s]; [apply H | done].
Qed.

(** C6, as stated, fails for the padding: the three constructors return a
    widget for the padding "FOO", which is neither "SAME" nor "VALID". *)
Lemma unknown_padding_is_accepted :
  fst (conv_c "FOO" empty_world) = Return 0 /\
  fst (pool_c "FOO" empty_world) = Return 0 /\
  fst (group_c "FOO" empty_world) = Return 0.
Proof. vm_compute. repeat split; reflexivity. Qed.

(** C6, amended.  [Pool2D] raises its [ValueError], before anything else
    happens, for every pool type whose lower-case form is neither "max" nor
    "avg".  None of the three constructors inspects the padding beyond
    comparing it with "SAME": with any other string they return or raise
    exactly as they do with "VALID". *)
Theorem pool_type_is_checked_and_padding_is_not :
  (forall name input_size fh fw sh sw padding pool_type st,
     lower pool_type <> "max" -> lower pool_type <> "avg" ->
     Pool2D___init__ name input_size fh fw sh sw padding pool_type st =
     (Raise (bad_pool_type (lower pool_type)), st)) /\
  (forall padding, padding <> "SAME" ->
     (forall name input_size oc fh fw sh sw flat st,
        fst (Conv2D___init__ name input_size oc fh fw sh sw padding flat st) =
        fst (Conv2D___init__ name input_size oc fh fw sh sw "VALID" flat st)) /\
     (forall name input_size fh fw sh sw pool_type st,
        fst (Pool2D___init__ name input_size fh fw sh sw padding pool_type st) =
        fst (Pool2D___init__ name input_size fh fw sh sw "VALID" pool_type st)) /\
     (forall name input_size oc groups fh fw sh sw data_format flat st,
        fst (GroupConv2D___init__ name input_size oc groups fh fw sh sw padding
               data_format flat st) =
        fst (GroupConv2D___init__ name input_size oc groups fh fw sh sw "VALID"
               data_format flat st))).
Proof.
  split.
  - intros name input_size fh fw sh sw padding pool_type st Hmax Havg.
    unfold Pool2D___init__.
    apply String.eqb_neq in Hmax, Havg. by rewrite Hmax, Havg.
  - intros padding Hp. apply String.eqb_neq in Hp.
    split; [|split].
    + intros. unfold Conv2D___init__.
      destruct input_size as [[|ih [|iw [|ic [|]]]]|]; try done.
      rewrite Hp. change (String.eqb "VALID" "SAME") with false.
      apply bind_outcome_ext. intros [oh ow] s.
      by apply Widget_init_outcome.
    + intros. unfold Pool2D___init__.
      destruct (negb _); [done|].
      rewrite Hp. change (String.eqb "VALID" "SAME") with false.
      apply bind_outcome_ext. intros ih s0.
      apply bind_outcome_ext. intros iw s1.
      apply bind_outcome_ext. intros ic s2.
      apply bind_outcome_ext. intros [oh ow] s.
      by apply Widget_init_outcome.
    + intros. unfold GroupConv2D___init__.
      destruct input_size as [[|ih [|iw [|ic [|]]]]|]; try done.
      rewrite Hp. change (String.eqb "VALID" "SAME") with false.
      apply bind_outcome_ext. intros [oh ow] s.
      apply Widget_init_outcome. intros s1 s2. simpl.
      unfold GroupConv2D__build, floor_div, lift, mbind, M_bind. simpl.
      by destruct (_ =? _)%Z.
Qed.

Lemma pool_type_is_checked_and_padding_is_not_witness :
  Pool2D___init__ (Str "p") (Seq [4; 4; 1]%Z) 3 3 2 2 "SAME" "Median" empty_world =
    (Raise (bad_pool_type (lower "Median")), empty_world) /\
  fst (Conv2D___init__ (Str "c") (Seq [28; 28; 1]%Z) 8 3 3 2 2 "FOO" false empty_world) =
  fst (Conv2D___init__ (Str "c") (Seq [28; 28; 1]%Z) 8 3 3 2 2 "VALID" false empty_world).
Proof.
  split.
  - apply (proj1 pool_type_is_checked_and_padding_is_not); vm_compute; discriminate.
  - apply (proj1 (proj2 pool_type_is_checked_and_padding_is_not "FOO"
                    ltac:(discriminate))).
Defined.

Example pool_type_is_lowered_first :
  fst (Pool2D___init__ (Str "p") (Seq [4; 4; 1]%Z) 3 3 2 2 "SAME" "MAX" empty_world)
  = Return 0.
Proof. vm_compute. reflexivity. Qed.

(** ** Validation after construction *)

Lemma Gate__setup_loop_raises xs : forall ws y st e,
  fst (Gate__setup_loop xs ws y st) = Raise e -> e = IndexError.
Proof.
  induction xs as [|x xs IH]; intros ws y st e; simpl; [done|].
  destruct ws as [|w ws]; [by intros [= <-]|]. apply IH.
Qed.

Ltac crush_setup :=
  unfold attr, arity_error, raise, mbind, M_bind, mret, M_ret;
  repeat (match goal with
          | |- context [match ?x with _ => _ end] =>
              lazymatch type of x with
              | option _ => destruct x
              | bool => destruct x
              | list _ => destruct x
              end
          end; simpl);
  try done.

(** No [_setup] hook raises a [RuntimeError]. *)
Lemma _setup_no_RuntimeError a args st msg :
  fst (_setup a args st) <> Raise (RuntimeError msg).
Proof.
  destruct a as [|a|a|a|a|a|a|a]; simpl.
  - done.
  - unfold Linear__setup. crush_setup.
  - unfold Conv2D__setup. crush_setup.
  - unfold Pool2D__setup. crush_setup.
  - unfold GroupConv2D__setup. crush_setup.
  - unfold GRUCell__setup. crush_setup.
  - unfold LSTMCell__setup. crush_setup.
  - unfold Gate__setup, attr, raise, mbind, M_bind, mret, M_ret.
    destruct (Gate._w_list a) as [ws|]; [|done].
    destruct (negb _); [done|].
    destruct (Gate__setup_loop args ws None st) as [[y|e] st'] eqn:E.
    + destruct (Gate._b a); [|done]. by destruct y.
    + simpl. apply (f_equal fst) in E. simpl in E.
      apply Gate__setup_loop_raises in E as ->. done.
Qed.

Lemma set_variable_scope_back st s :
  set_variable_scope (variable_scope st) (set_variable_scope s st) = st.
Proof. by destruct st. Qed.

(** C8, as stated, fails: the gate "g" is built with two weights, and
    setting it up on one input raises the [ValueError] of [Gate._setup]. *)
Lemma built_gate_rejects_wrong_number_of_inputs :
  (_built <$> objects world_with_gate !! 0) = Some true /\
  Widget_setup 0 [tf.Input "x"] world_with_gate = (Raise (ValueError ""), world_with_gate).
Proof. vm_compute. split; reflexivity. Qed.

(** C8, amended.  For a built widget the not-built branch of [setup] is
    unreachable.  Arguments are nonetheless validated after construction:
    setting up a built gate on a number of inputs other than its number of
    weights raises the [ValueError] of [Gate._setup] and changes nothing,
    and [GRUCell.setup_recursive] raises its [ValueError] when [init_state]
    and [init_input] are both [None]. *)
Theorem validation_after_construction :
  (forall self st w args,
     objects st !! self = Some w -> _built w = true ->
     fst (Widget_setup self args st) <> Raise not_built_error) /\
  (forall self st w g ws p args,
     objects st !! self = Some w -> _built w = true -> _prefix w = Some p ->
     attrs w = OfGate g -> Gate._w_list g = Some ws ->
     length args <> length ws ->
     Widget_setup self args st = (Raise (ValueError ""), st)) /\
  (forall operations_setup operations_transpose_sequence self max_len
          input_widgets output_widgets st,
     GRUCell_setup_recursive operations_setup operations_transpose_sequence
       self max_len input_widgets output_widgets None None st =
     (Raise both_none_error, st)).
Proof.
  split; [|split].
  - intros self st w args Hw Hb.
    unfold Widget_setup, mbind, M_bind, get_obj. rewrite Hw, Hb. simpl.
    destruct (_name w); [|apply _setup_no_RuntimeError].
    unfold with_variable_scope. destruct (_prefix w) as [p|]; [|done].
    pose proof (_setup_no_RuntimeError (attrs w) args
                  (set_variable_scope (tf.nested_scope (variable_scope st) p) st)
                  "This widget has not been built. Please build first.") as H.
    by destruct (_setup _ _ _).
  - intros self st w g ws p args Hw Hb Hp Ha Hws Hlen.
    unfold Widget_setup, mbind, M_bind, get_obj. rewrite Hw, Hb, Hp, Ha. simpl.
    assert (E : forall s, Gate__setup g args s = (Raise (ValueError ""), s)).
    { intros s. unfold Gate__setup, attr, mbind, M_bind, mret, M_ret. rewrite Hws.
      apply Nat.eqb_neq in Hlen. by rewrite Hlen. }
    destruct (_name w); [|apply E].
    unfold with_variable_scope. rewrite E. by rewrite set_variable_scope_back.
  - done.
Qed.

Lemma validation_after_construction_witness :
  fst (Widget_setup 0 [tf.Input "x"; tf.Input "y"] world_with_gate) <> Raise not_built_error /\
  Widget_setup 0 [tf.Input "x"] world_with_gate = (Raise (ValueError ""), world_with_gate).
Proof.
  split.
  - eapply (proj1 validation_after_construction); [vm_compute; reflexivity | reflexivity].
  - eapply (proj1 (proj2 validation_after_construction));
      [vm_compute; reflexivity | reflexivity | reflexivity | reflexivity
      | reflexivity | vm_compute; discriminate].
Defined.

Example built_gate_accepts_two_inputs :
  fst (Widget_setup 0 [tf.Input "x"; tf.Input "y"] world_with_gate) =
  Return (tf.One (tf.Sigmoid None
    (tf.Add None
       (tf.Add None (tf.MatMul (tf.Input "x") (tf.Var "g/w_0:0"))
          (tf.MatMul (tf.Input "y") (tf.Var "g/w_1:0")))
       (tf.Var "g/b:0")))).
Proof. vm_compute. reflexivity. Qed.

(** ** The recurrent step functions *)

Section Recurrence.

Variable T : Type.
Variables matmul add sub mul : T -> T -> T.
Variables sigmoid tanh relu : T -> T.
Variable const : Q -> T.
Variables input var : string -> T.

Abbreviation ev := (eval T matmul add sub mul sigmoid tanh relu const input var).
Abbreviation denotes_ := (denotes T matmul add sub mul sigmoid tanh relu const input var).

Lemma eval_activate f act t v :
  denotes_ f act -> ev t = Some v -> ev (activate f t) = Some (act v).
Proof.
  destruct f as [f|]; simpl; intros Hf Ht.
  - by apply Hf.
  - by rewrite Hf.
Qed.

(** The step of a built GRU cell denotes the published recurrence over
    the cell's parameters. *)
Lemma GRUCell_setup_is_published_gru cfg st0 a st1 act x h_ vx vh st :
  GRUCell__build cfg st0 = (Return a, st1) ->
  denotes_ (GRUCell._activation cfg) act ->
  ev x = Some vx -> ev h_ = Some vh ->
  let p n := var (tf.name_scope (variable_scope st0) ++ n ++ ":0") in
  let b n := if GRUCell._with_bias cfg then Some (p n) else None in
  exists t,
    GRUCell__setup a [x; h_] st = (Return (tf.One t), st) /\
    ev t = Some (published_gru T matmul add sub mul sigmoid const act vx vh
                   (p "wz") (p "uz") (p "wr") (p "ur") (p "wh") (p "uh")
                   (b "bz") (b "br") (b "bh")).
Proof.
  intros Hbuild Hact Hx Hh p b. revert Hbuild.
  unfold GRUCell__build, mbind, M_bind, mret, M_ret. simpl.
  destruct (GRUCell._with_bias cfg) eqn:Eb; simpl; intros [= <- <-];
    unfold GRUCell__setup, attr, mbind, M_bind, mret, M_ret; simpl; rewrite ?Eb;
    simpl; eexists; (split; [reflexivity|]);
    unfold published_gru, affine, b; simpl; rewrite Hx, Hh; simpl.
  - erewrite eval_activate; [reflexivity | exact Hact |].
    simpl. by rewrite Hx, Hh.
  - erewrite eval_activate; [reflexivity | exact Hact |].
    simpl. by rewrite Hx, Hh.
Qed.

(** The step of a built LSTM cell: the output state is the published
    one, while the cell state it hands back is the activation of the
    published cell state. *)
Lemma LSTMCell_setup_vs_published_lstm cfg st0 a st1 act x c_ h_ vx vc vh st :
  LSTMCell__build cfg st0 = (Return a, st1) ->
  denotes_ (LSTMCell._activation cfg) act ->
  ev x = Some vx -> ev c_ = Some vc -> ev h_ = Some vh ->
  let p n := var (tf.name_scope (variable_scope st0) ++ n ++ ":0") in
  let b n := if LSTMCell._with_bias cfg then Some (p n) else None in
  let published :=
    published_lstm T matmul add mul sigmoid act vx vc vh
      (p "wi") (p "ui") (p "wf") (p "uf") (p "wo") (p "uo") (p "wc") (p "uc")
      (b "bi") (b "bf") (b "bo") (b "bc") in
  exists cell_state state,
    LSTMCell__setup a [x; c_; h_] st = (Return (tf.Two cell_state state), st) /\
    ev cell_state = Some (act (fst published)) /\
    ev state = Some (snd published).
Proof.
  intros Hbuild Hact Hx Hc Hh p b published. revert Hbuild.
  unfold LSTMCell__build, mbind, M_bind, mret, M_ret. simpl.
  destruct (LSTMCell._with_bias cfg) eqn:Eb; simpl; intros [= <- <-];
    unfold LSTMCell__setup, attr, mbind, M_bind, mret, M_ret; simpl; rewrite ?Eb;
    simpl; eexists _, _; (split; [reflexivity|]);
    unfold published, published_lstm, affine, b; simpl; rewrite Hx, Hh; simpl.
  - assert (Hcand : forall t v, ev t = Some v ->
              ev (activate (LSTMCell._activation cfg) t) = Some (act v))
      by (intros; by apply eval_activate).
    split.
    + apply Hcand. simpl. rewrite Hx, Hh, Hc. simpl.
      erewrite Hcand; [reflexivity|]. simpl. by rewrite Hx, Hh.
    + erewrite Hcand; [reflexivity|]. simpl. rewrite Hx, Hh, Hc. simpl.
      erewrite Hcand; [reflexivity|]. simpl. by rewrite Hx, Hh.
  - assert (Hcand : forall t v, ev t = Some v ->
              ev (activate (LSTMCell._activation cfg) t) = Some (act v))
      by (intros; by apply eval_activate).
    split.
    + apply Hcand. simpl. rewrite Hx, Hh, Hc. simpl.
      erewrite Hcand; [reflexivity|]. simpl. by rewrite Hx, Hh.
    + erewrite Hcand; [reflexivity|]. simpl. rewrite Hx, Hh, Hc. simpl.
      erewrite Hcand; [reflexivity|]. simpl. by rewrite Hx, Hh.
Qed.

End Recurrence.

(** C5.  The code at the failing input: an LSTM cell without biases and
    with tanh as activation, set up on an input, a previous cell state and
    a previous output state.  The output state is o * tanh(c) for the
    published cell state c = f * c_prev + i * tanh(candidate), but the cell
    state handed back is the node tanh(c), not the node c itself, which the
    graph knows as "cell_state". *)
Theorem LSTMCell_hands_back_activated_cell_state :
  let x := tf.Input "x" in
  let c_prev := tf.Input "c_prev" in
  let h_prev := tf.Input "h_prev" in
  let affine w u :=
    tf.Add None (tf.MatMul x (tf.Var w)) (tf.MatMul h_prev (tf.Var u)) in
  let i := tf.Sigmoid (Some "input_gate") (affine "lstm/wi:0" "lstm/ui:0") in
  let f := tf.Sigmoid (Some "forget_gate") (affine "lstm/wf:0" "lstm/uf:0") in
  let o := tf.Sigmoid (Some "output_gate") (affine "lstm/wo:0" "lstm/uo:0") in
  let candidate := tf.Tanh (affine "lstm/wc:0" "lstm/uc:0") in
  let c := tf.Add (Some "cell_state") (tf.Mul None f c_prev) (tf.Mul None i candidate) in
  Widget_setup 0 [x; c_prev; h_prev] world_with_lstm =
    (Return (tf.Two (tf.Tanh c) (tf.Mul (Some "state") o (tf.Tanh c))), world_with_lstm) /\
  tf.Tanh c <> c.
Proof. vm_compute. split; [reflexivity | discriminate]. Qed.

Example GRUCell_step_graph :
  let st := snd (GRUCell___init__ (Str "gru") 1 1 false (Some tf.Tanh) empty_world) in
  let x := tf.Input "x" in
  let h_ := tf.Input "h_prev" in
  let affine h w u :=
    tf.Add None (tf.MatMul x (tf.Var w)) (tf.MatMul h (tf.Var u)) in
  let z := tf.Sigmoid (Some "update_gate") (affine h_ "gru/wz:0" "gru/uz:0") in
  let r := tf.Sigmoid (Some "reset_gate") (affine h_ "gru/wr:0" "gru/ur:0") in
  let candidate := tf.Tanh (affine (tf.Mul None r h_) "gru/wh:0" "gru/uh:0") in
  fst (Widget_setup 0 [x; h_] st) =
  Return (tf.One (tf.Add None (tf.Mul None z h_)
                    (tf.Mul None (tf.Sub (tf.Const 1) z) candidate))).
Proof. vm_compute. reflexivity. Qed.

(** * Further properties of the module *)

(** ** What a build adds to the graph *)

Lemma startswith_app p s : startswith (p ++ s) p = true.
Proof.
  unfold startswith. induction p as [|c p IH]; simpl.
  - by destruct s.
  - destruct (ascii_dec c c); [exact IH | done].
Qed.

Lemma hook_step_refl st : hook_step st st.
Proof.
  split; [apply same_but_variables_refl|].
  exists []. split; [by rewrite app_nil_r | constructor].
Qed.

Lemma hook_step_trans st1 st2 st3 :
  hook_step st1 st2 -> hook_step st2 st3 -> hook_step st1 st3.
Proof.
  intros [H12 (vs & E12 & F12)] [H23 (ws & E23 & F23)].
  split; [by eapply same_but_variables_trans|].
  exists (vs ++ ws)%list. split.
  - by rewrite E23, E12, app_assoc.
  - apply Forall_app. split; [done|].
    destruct H12 as (Hs & _). by rewrite Hs in F23.
Qed.

Lemma tf_Variable_step local shape st :
  hook_step st (snd (tf_Variable local shape st)).
Proof.
  split; [apply tf_Variable_frame|].
  eexists [_]. split; [reflexivity|].
  constructor; [|constructor]. simpl. split; [apply startswith_app | done].
Qed.

Lemma bind_step {A B} (c : M A) (k : A -> M B) st :
  hook_step st (snd (c st)) ->
  (forall a st', hook_step st' (snd (k a st'))) ->
  hook_step st (snd ((a ← c; k a) st)).
Proof.
  intros Hc Hk. unfold mbind, M_bind.
  destruct (c st) as [[a|e] st'] eqn:E; simpl in *; [|done].
  eapply hook_step_trans; [exact Hc | apply Hk].
Qed.

Ltac step :=
  repeat first
    [ apply hook_step_refl
    | apply tf_Variable_step
    | apply bind_step; [| intros ? ?]
    | match goal with
      | |- hook_step _ (snd ((if ?b then _ else _) _)) => destruct b
      end ].

Lemma Gate__build_loop_step input_sizes : forall i output_size w_list st,
  hook_step st (snd (Gate__build_loop i input_sizes output_size w_list st)).
Proof.
  induction input_sizes as [|z rest IH]; intros; simpl.
  - apply hook_step_refl.
  - apply bind_step; [apply tf_Variable_step | intros; apply IH].
Qed.

(** Every hook only appends trainable variables that are named inside the
    scope it runs in. *)
Lemma _build_step a st : hook_step st (snd (_build a st)).
Proof.
  destruct a as [|a|a|a|a|a|a|a]; unfold _build;
    [apply hook_step_refl | apply bind_step; [|intros; apply hook_step_refl] ..].
  - unfold Linear__build. step.
  - unfold Conv2D__build. step.
  - apply hook_step_refl.
  - unfold GroupConv2D__build, floor_div, lift.
    apply bind_step; [destruct (_ =? _)%Z; apply hook_step_refl|intros].
    step.
  - unfold GRUCell__build. step.
  - unfold LSTMCell__build. step.
  - unfold Gate__build.
    apply bind_step; [apply Gate__build_loop_step|intros]. step.
Qed.

Lemma Widget_build_unnamed_state self st w :
  objects st !! self = Some w -> _built w = false -> _name w = None ->
  exists w', snd (Widget_build self st) = set_objects (<[self := w']> (objects st)) st /\
             _built w' = false /\ _name w' = None.
Proof.
  intros Hw Hb Hn. unfold Widget_build.
  unfold mbind at 1. unfold M_bind at 1. unfold get_obj at 1. rewrite Hw, Hb.
  unfold mbind at 1. unfold M_bind at 1. unfold get_variable_scope_name at 1.
  erewrite bind_return; [|by apply update_run].
  rewrite Hn.
  destruct (String.eqb (variable_scope st) "") eqn:E1;
    [|destruct (endswith_slash (variable_scope st)) eqn:E2].
  - erewrite bind_return; [|done].
    erewrite bind_return; cycle 1.
    { apply update_run. rewrite objects_set_objects. apply lookup_insert_eq. }
    rewrite objects_set_objects, set_objects_twice, insert_insert_eq.
    eexists. split; [reflexivity|]. by split.
  - eexists. split; [reflexivity|]. by split.
  - erewrite bind_return; [|done].
    erewrite bind_return; cycle 1.
    { apply update_run. rewrite objects_set_objects. apply lookup_insert_eq. }
    erewrite bind_return; cycle 1.
    { apply update_run. rewrite objects_set_objects. apply lookup_insert_eq. }
    rewrite !objects_set_objects, !set_objects_twice, !insert_insert_eq.
    eexists. split; [reflexivity|]. by split.
Qed.

(** What [build] can change: nothing at all, or else it appends
    variables, replaces the object of the so far unbuilt [self], and may
    register [self], then built, under its full name. *)
Lemma Widget_build_cases self st :
  let st' := snd (Widget_build self st) in
  st' = st \/
  exists w w' vs,
    objects st !! self = Some w /\ _built w = false /\
    _name w' = _name w /\ built_widget_ok w' /\
    variables st' = (variables st ++ vs)%list /\
    variable_scope st' = variable_scope st /\ session st' = session st /\
    next_ref st' = next_ref st /\
    objects st' = <[self := w']> (objects st) /\
    (INSTANCES st' = INSTANCES st \/
     exists f, INSTANCES st !! f = None /\
               INSTANCES st' = <[f := self]> (INSTANCES st) /\
               _built w' = true /\ _full_name w' = Some f).
Proof.
  intros st'. subst st'.
  destruct (objects st !! self) as [w|] eqn:Hw; cycle 1.
  { left. unfold Widget_build, mbind, M_bind, get_obj. by rewrite Hw. }
  destruct (_built w) eqn:Hb.
  { left. by rewrite (Widget_build_on_built_is_return self st w Hw Hb). }
  right.
  destruct (_name w) as [n|] eqn:Hn; cycle 1.
  { destruct (Widget_build_unnamed_state self st w Hw Hb Hn) as (w' & -> & Hb' & Hn').
    exists w, w', []. rewrite app_nil_r.
    repeat split; try done; [congruence | intros ?; congruence | by left]. }
  rewrite (Widget_build_unbuilt self st w n Hw Hb Hn).
  set (full := qualified (variable_scope st) n).
  set (w1 := with_prefix _ _). set (st1 := set_variable_scope _ _).
  pose proof (_build_step (attrs w) st1) as [(Hsc & Hse & Hin & Hob & Hnx) (vs & Hvs & _)].
  destruct (_build (attrs w) st1) as [[a|e] st2];
    simpl in Hsc, Hse, Hin, Hob, Hnx, Hvs.
  - exists w, (with_built true (with_attrs a w1)), vs.
    assert (Hok : built_widget_ok (with_built true (with_attrs a w1))).
    { intros _. exists n, full. by repeat split. }
    destruct (INSTANCES st !! full) eqn:Ereg; simpl;
      repeat split; try done; [by left | right].
    exists full. by repeat split.
  - exists w, w1, vs. simpl.
    repeat split; try done; [intros ?; simpl in *; congruence | by left].
Qed.

(** [build] leaves alone what does not belong to [self]: the scope is
    restored and the session untouched whether it returns or raises,
    variables are only appended, the other widgets are unchanged, and no
    registry entry is removed or redirected. *)
Theorem Widget_build_frame (self : nat) (st : world) :
  let st' := snd (Widget_build self st) in
  variable_scope st' = variable_scope st /\
  session st' = session st /\
  (exists vs, variables st' = (variables st ++ vs)%list) /\
  (forall r, r <> self -> objects st' !! r = objects st !! r) /\
  (forall f r, INSTANCES st !! f = Some r -> INSTANCES st' !! f = Some r).
Proof.
  intros st'. subst st'.
  destruct (Widget_build_cases self st)
    as [->|(w & w' & vs & Hw & Hb & Hn & Hok & Hvs & Hsc & Hse & Hnx & Hob & Hreg)].
  { repeat split; try done. exists []. by rewrite app_nil_r. }
  repeat split; try done.
  - by exists vs.
  - intros r Hr. rewrite Hob. by apply lookup_insert_ne.
  - intros f r Hf. destruct Hreg as [->|(f' & Hnone & -> & _)]; [done|].
    rewrite lookup_insert_ne; [done|]. intros ->. congruence.
Qed.

Lemma Widget_build_frame_witness :
  variable_scope (snd (Widget_build 1 world_with_unbuilt_q)) = "" /\
  INSTANCES (snd (Widget_build 1 world_with_unbuilt_q)) !! "p" = Some 0.
Proof.
  destruct (Widget_build_frame 1 world_with_unbuilt_q) as (Hs & _ & _ & _ & Hreg).
  split; [exact Hs|]. apply Hreg. vm_compute. reflexivity.
Defined.

(** ** The registry invariant *)

Lemma world_ok_empty : world_ok empty_world.
Proof.
  split; [|split]; intros *; simpl; try rewrite lookup_empty; done.
Qed.

Lemma Widget_build_world_ok (self : nat) (st : world) :
  world_ok st -> world_ok (snd (Widget_build self st)).
Proof.
  intros (Hobj & Hreg & Hfresh).
  destruct (Widget_build_cases self st)
    as [->|(w & w' & vs & Hw & Hb & Hn & Hok & Hvs & Hsc & Hse & Hnx & Hob & Hr)].
  { done. }
  split; [|split].
  - intros r w0. rewrite Hob. intros H.
    apply lookup_insert_Some in H as [[<- <-]|[_ H]]; [done | by eapply Hobj].
  - intros f r Hf.
    assert (Hold : forall f r, INSTANCES st !! f = Some r ->
              exists w0, objects (snd (Widget_build self st)) !! r = Some w0 /\
                         _built w0 = true /\ _full_name w0 = Some f).
    { intros f0 r0 H0. destruct (Hreg f0 r0 H0) as (w0 & Hw0 & Hb0 & Hf0).
      exists w0. rewrite Hob. split; [|done].
      rewrite lookup_insert_ne; [done|]. intros <-. congruence. }
    destruct Hr as [E|(f' & Hnone & E & Hb' & Hf')]; rewrite E in Hf; [by apply Hold|].
    apply lookup_insert_Some in Hf as [[<- <-]|[_ Hf]]; [|by apply Hold].
    exists w'. rewrite Hob. split; [apply lookup_insert_eq | done].
  - intros r Hr'. rewrite Hob, Hnx in *.
    rewrite lookup_insert_ne; [by apply Hfresh|].
    intros <-. rewrite Hfresh in Hw; done.
Qed.

Lemma Widget_init_world_ok a name build st :
  world_ok st -> world_ok (snd (Widget___init__ a name build st)).
Proof.
  intros Hok. unfold Widget___init__.
  set (check := match name with None_ => _ | _ => _ end).
  unfold mbind at 1. unfold M_bind at 1.
  destruct (check st) as [[n|e] st0] eqn:Echeck.
  2: { subst check. destruct name; simpl in Echeck; try (by injection Echeck as _ <-).
       destruct (_ || _); by injection Echeck as _ <-. }
  assert (st0 = st) as ->.
  { subst check. destruct name; simpl in Echeck; try done.
    - by injection Echeck.
    - destruct (_ || _); [done | by injection Echeck]. }
  clear Echeck check.
  unfold mbind at 1. unfold M_bind at 1. unfold alloc at 1.
  set (w0 := {| _name := n; _scope := ""; _full_name := None; _prefix := None;
                _built := false; attrs := a |}).
  set (sta := {| variable_scope := variable_scope st; variables := variables st;
                 session := session st; INSTANCES := INSTANCES st;
                 objects := <[next_ref st := w0]> (objects st);
                 next_ref := S (next_ref st) |}).
  assert (Hsta : world_ok sta).
  { destruct Hok as (Hobj & Hreg & Hfresh). split; [|split]; simpl.
    - intros r w H.
      apply lookup_insert_Some in H as [[<- <-]|[_ H]]; [done | by eapply Hobj].
    - intros f r Hf. destruct (Hreg f r Hf) as (w & Hw & Hb & Hfn).
      exists w. split; [|done]. rewrite lookup_insert_ne; [done|].
      intros <-. rewrite Hfresh in Hw; [done | lia].
    - intros r Hr. rewrite lookup_insert_ne; [apply Hfresh; lia | lia]. }
  destruct build; [|done].
  unfold mbind, M_bind.
  pose proof (Widget_build_world_ok (next_ref st) sta Hsta) as H.
  by destruct (Widget_build (next_ref st) sta) as [[r|e] st'].
Qed.

Lemma lift_bind_world_ok {A B} (o : outcome A) (k : A -> M B) st :
  (forall a, world_ok (snd (k a st))) ->
  world_ok st -> world_ok (snd ((a ← lift o; k a) st)).
Proof.
  intros Hk Hst. unfold mbind, M_bind, lift. destruct o; [apply Hk | done].
Qed.

Lemma extents_bind_world_ok {B} (padding : string) ih iw fh fw sh sw
    (k : Z * Z -> M B) st :
  (forall p, world_ok (snd (k p st))) -> world_ok st ->
  world_ok (snd (((if String.eqb padding "SAME" then
                     h ← lift (ceil_div ih sh); w ← lift (ceil_div iw sw); mret (h, w)
                   else
                     h ← lift (ceil_div (ih - fh + 1) sh);
                     w ← lift (ceil_div (iw - fw + 1) sw); mret (h, w)) ≫= k) st)).
Proof.
  intros Hk Hst. unfold mbind, M_bind, lift, mret, M_ret.
  destruct (String.eqb padding "SAME").
  - destruct (ceil_div ih sh); [|done]. destruct (ceil_div iw sw); [apply Hk | done].
  - destruct (ceil_div (ih - fh + 1) sh); [|done].
    destruct (ceil_div (iw - fw + 1) sw); [apply Hk | done].
Qed.

Lemma Conv2D_init_world_ok name input_size oc fh fw sh sw padding flat st :
  world_ok st ->
  world_ok (snd (Conv2D___init__ name input_size oc fh fw sh sw padding flat st)).
Proof.
  intros. unfold Conv2D___init__.
  destruct input_size as [[|ih [|iw [|ic [|]]]]|]; try done.
  apply extents_bind_world_ok; [|done]. intros [??]. by apply Widget_init_world_ok.
Qed.

Lemma Pool2D_init_world_ok name input_size fh fw sh sw padding pool_type st :
  world_ok st ->
  world_ok (snd (Pool2D___init__ name input_size fh fw sh sw padding pool_type st)).
Proof.
  intros. unfold Pool2D___init__. destruct (negb _); [done|].
  unfold item.
  destruct input_size as [[|ih [|iw [|ic rest]]]|]; try done.
  simpl. unfold mbind at 1 2 3. unfold M_bind at 1 2 3. simpl.
  apply extents_bind_world_ok; [|done]. intros [??]. by apply Widget_init_world_ok.
Qed.

Lemma GroupConv2D_init_world_ok name input_size oc groups fh fw sh sw padding
    data_format flat st :
  world_ok st ->
  world_ok (snd (GroupConv2D___init__ name input_size oc groups fh fw sh sw padding
                   data_format flat st)).
Proof.
  intros. unfold GroupConv2D___init__.
  destruct input_size as [[|ih [|iw [|ic [|]]]]|]; try done.
  apply extents_bind_world_ok; [|done]. intros [??]. by apply Widget_init_world_ok.
Qed.

Lemma world_with_p_ok : world_ok world_with_p.
Proof. apply Pool2D_init_world_ok, world_ok_empty. Qed.

(** The invariant of the registry holds in the empty world and is kept by
    [build], by [Widget.__init__] and by the constructors of the
    subclasses, whether they return or raise: every registered name leads
    to a built widget that carries this name as its full name, and every
    built widget has a name and its full name plus a slash as prefix. *)
Theorem world_ok_is_invariant :
  world_ok empty_world /\
  (forall self st, world_ok st -> world_ok (snd (Widget_build self st))) /\
  (forall a name build st,
     world_ok st -> world_ok (snd (Widget___init__ a name build st))) /\
  (forall name input_size oc fh fw sh sw padding flat st,
     world_ok st ->
     world_ok (snd (Conv2D___init__ name input_size oc fh fw sh sw padding flat st))) /\
  (forall name input_size fh fw sh sw padding pool_type st,
     world_ok st ->
     world_ok (snd (Pool2D___init__ name input_size fh fw sh sw padding pool_type st))) /\
  (forall name input_size oc groups fh fw sh sw padding data_format flat st,
     world_ok st ->
     world_ok (snd (GroupConv2D___init__ name input_size oc groups fh fw sh sw padding
                      data_format flat st))) /\
  (forall name input_size output_size with_bias st,
     world_ok st ->
     world_ok (snd (Linear___init__ name input_size output_size with_bias st))) /\
  (forall name input_size state_size with_bias activation st,
     world_ok st ->
     world_ok (snd (GRUCell___init__ name input_size state_size with_bias activation st))) /\
  (forall name input_size state_size with_bias activation st,
     world_ok st ->
     world_ok (snd (LSTMCell___init__ name input_size state_size with_bias activation st))) /\
  (forall name input_sizes output_size st,
     world_ok st -> world_ok (snd (Gate___init__ name input_sizes output_size st))).
Proof.
  split; [apply world_ok_empty|].
  split; [apply Widget_build_world_ok|].
  split; [apply Widget_init_world_ok|].
  split; [intros; by apply Conv2D_init_world_ok|].
  split; [intros; by apply Pool2D_init_world_ok|].
  split; [intros; by apply GroupConv2D_init_world_ok|].
  split; [|split; [|split]]; intros.
  - unfold Linear___init__. by apply Widget_init_world_ok.
  - unfold GRUCell___init__. by apply Widget_init_world_ok.
  - unfold LSTMCell___init__. by apply Widget_init_world_ok.
  - unfold Gate___init__. by apply Widget_init_world_ok.
Qed.

Lemma world_ok_is_invariant_witness :
  world_ok (snd (conv_c "SAME" (snd (pool_c "SAME" empty_world)))).
Proof.
  apply (proj1 (proj2 (proj2 (proj2 world_ok_is_invariant)))).
  apply (proj1 (proj2 (proj2 (proj2 (proj2 world_ok_is_invariant))))).
  apply (proj1 world_ok_is_invariant).
Defined.



(** ** Setting up *)

Lemma Gate__setup_loop_state xs : forall ws y st,
  snd (Gate__setup_loop xs ws y st) = st.
Proof.
  induction xs as [|x xs IH]; intros ws y st; simpl; [done|].
  destruct ws as [|w ws]; [done | apply IH].
Qed.

(** No [_setup] hook changes the state. *)
Lemma _setup_state a args st : snd (_setup a args st) = st.
Proof.
  destruct a as [|a|a|a|a|a|a|a]; simpl.
  - done.
  - unfold Linear__setup. crush_setup.
  - unfold Conv2D__setup. crush_setup.
  - unfold Pool2D__setup. crush_setup.
  - unfold GroupConv2D__setup. crush_setup.
  - unfold GRUCell__setup. crush_setup.
  - unfold LSTMCell__setup. crush_setup.
  - unfold Gate__setup, attr, raise, mbind, M_bind, mret, M_ret.
    destruct (Gate._w_list a) as [ws|]; [|done].
    destruct (negb _); [done|].
    pose proof (Gate__setup_loop_state args ws None st) as E.
    destruct (Gate__setup_loop args ws None st) as [[y|e] st']; simpl in E; subst st'.
    + destruct (Gate._b a); [|done]. by destruct y.
    + done.
Qed.

(** [setup] wires the graph and changes nothing else: whatever the widget
    and the arguments are, and whether it returns or raises, the scope,
    the variables, the session, the widgets and the registry are afterwards
    what they were.  It raises the not-built error exactly for an existing
    widget that is not built. *)
Theorem Widget_setup_changes_nothing (self : nat) (args : list tf.tensor) (st : world) :
  snd (Widget_setup self args st) = st /\
  (fst (Widget_setup self args st) = Raise not_built_error <->
   exists w, objects st !! self = Some w /\ _built w = false).
Proof.
  unfold Widget_setup, mbind, M_bind, get_obj.
  destruct (objects st !! self) as [w|] eqn:Hw; cycle 1.
  { split; [done|]. split; [done | by intros (? & ? & ?)]. }
  destruct (_built w) eqn:Hb; simpl; cycle 1.
  { split; [done|]. split; [by eauto | done]. }
  assert (Hno : forall s, fst (_setup (attrs w) args s) <> Raise not_built_error)
    by (intros s; apply _setup_no_RuntimeError).
  destruct (_name w).
  - unfold with_variable_scope. destruct (_prefix w) as [p|].
    + pose proof (_setup_state (attrs w) args
                    (set_variable_scope (tf.nested_scope (variable_scope st) p) st)) as E.
      specialize (Hno (set_variable_scope (tf.nested_scope (variable_scope st) p) st)).
      destruct (_setup _ _ _) as [o st']. simpl in *. subst st'.
      split; [apply set_variable_scope_back|].
      split; [done | intros (w' & [= <-] & ?); congruence].
    + split; [done|]. split; [done | intros (w' & [= <-] & ?); congruence].
  - split; [apply _setup_state|].
    split; [by intros ?%Hno | intros (w' & [= <-] & ?); congruence].
Qed.

Lemma Widget_setup_changes_nothing_witness :
  snd (Widget_setup 1 [tf.Input "x"] world_with_unbuilt_q) = world_with_unbuilt_q /\
  fst (Widget_setup 1 [tf.Input "x"] world_with_unbuilt_q) = Raise not_built_error.
Proof.
  destruct (Widget_setup_changes_nothing 1 [tf.Input "x"] world_with_unbuilt_q)
    as [H1 [_ H2]].
  split; [exact H1|]. apply H2. eexists. split; [vm_compute; reflexivity | reflexivity].
Defined.

(** ** Constructions that cannot succeed *)

(** A constructor call whose hook raises at once: the exception comes
    out, and neither the variables nor the registry change. *)
Lemma Widget_init_hook_raises a s st e :
  ~ malformed (Str s) -> (forall s1, _build a s1 = (Raise e, s1)) ->
  fst (Widget___init__ a (Str s) true st) = Raise e /\
  variables (snd (Widget___init__ a (Str s) true st)) = variables st /\
  INSTANCES (snd (Widget___init__ a (Str s) true st)) = INSTANCES st /\
  variable_scope (snd (Widget___init__ a (Str s) true st)) = variable_scope st.
Proof.
  intros Hname Hhook.
  assert (E : exists st', Widget___init__ a (Str s) true st = (Raise e, st') /\
                variables st' = variables st /\ INSTANCES st' = INSTANCES st /\
                variable_scope st' = variable_scope st).
  { unfold Widget___init__.
    destruct (negb (len (strip s) =? len s)%Z || String.eqb s "") eqn:E.
    { exfalso. apply Hname. by apply name_check_spec. }
    unfold mbind at 1. unfold M_bind at 1. unfold mret at 1. unfold M_ret at 1.
    unfold mbind at 1. unfold M_bind at 1. unfold alloc at 1.
    set (w0 := {| _name := Some s; _scope := ""; _full_name := None; _prefix := None;
                  _built := false; attrs := a |}).
    set (sta := {| variable_scope := variable_scope st; variables := variables st;
                   session := session st; INSTANCES := INSTANCES st;
                   objects := <[next_ref st := w0]> (objects st);
                   next_ref := S (next_ref st) |}).
    assert (Hw : objects sta !! next_ref st = Some w0) by apply lookup_insert_eq.
    unfold mbind, M_bind.
    rewrite (Widget_build_unbuilt (next_ref st) sta w0 s Hw eq_refl eq_refl).
    simpl attrs. rewrite Hhook. eexists. split; [reflexivity|]. done. }
  destruct E as (st' & -> & ? & ? & ?). done.
Qed.





(** A widget without a name cannot be built: whatever its class and the
    current scope, [build] raises a [TypeError], registers nothing and
    creates no variable.  Hence [name=None] only works with
    [build=False], which no subclass constructor offers. *)
Theorem unnamed_widget_cannot_be_built (self : nat) (st : world) (w : widget) :
  objects st !! self = Some w -> _built w = false -> _name w = None ->
  (exists msg, fst (Widget_build self st) = Raise (TypeError msg)) /\
  INSTANCES (snd (Widget_build self st)) = INSTANCES st /\
  variables (snd (Widget_build self st)) = variables st /\
  (_built <$> objects (snd (Widget_build self st)) !! self) = Some false.
Proof.
  intros Hw Hb Hn. split; [|].
  - eexists. by apply (Widget_build_unnamed_error self st w).
  - destruct (Widget_build_unnamed_state self st w Hw Hb Hn) as (w' & -> & Hb' & _).
    simpl. rewrite lookup_insert_eq. simpl. by rewrite Hb'.
Qed.

Lemma unnamed_widget_cannot_be_built_witness :
  (exists msg, fst (Widget_build 1 world_with_unnamed) = Raise (TypeError msg)) /\
  INSTANCES (snd (Widget_build 1 world_with_unnamed)) = INSTANCES world_with_unnamed /\
  variables (snd (Widget_build 1 world_with_unnamed)) = variables world_with_unnamed /\
  (_built <$> objects (snd (Widget_build 1 world_with_unnamed)) !! 1) = Some false.
Proof.
  eapply unnamed_widget_cannot_be_built; [vm_compute; reflexivity | reflexivity | reflexivity].
Defined.

(** ** What a constructor leaves behind *)

Lemma string_app_assoc (a b c : string) : (a ++ b) ++ c = a ++ b ++ c.
Proof.
  induction a as [|x a IH]; [done|].
  change (String x ((a ++ b) ++ c) = String x (a ++ b ++ c)). by rewrite IH.
Qed.

Lemma string_app_nonempty (a b : string) : b <> "" -> a ++ b <> "".
Proof.
  intros Hb. destruct a as [|x a]; [done|].
  change (String x (a ++ b) <> ""). discriminate.
Qed.

(** Outside a scope that ends in a slash, the scope a widget is built in
    is its full name, so that what is named inside starts with the
    widget's prefix. *)
Lemma name_scope_is_prefix scope s :
  s <> "" -> endswith_slash scope = false ->
  tf.name_scope (tf.nested_scope scope s) = qualified scope s ++ "/".
Proof.
  intros Hs Hslash. unfold tf.name_scope, tf.nested_scope, qualified.
  rewrite Hslash. destruct (String.eqb scope "") eqn:E.
  - apply String.eqb_neq in Hs. by rewrite Hs.
  - assert (H : scope ++ "/" ++ s <> "") by (apply string_app_nonempty; discriminate).
    apply String.eqb_neq in H. by rewrite H.
Qed.

(** A constructor call that returns: the object is new, it is built and
    registered under its full name, and the hook's variables are
    appended. *)
Lemma Widget_init_returns a name st self st' :
  Widget___init__ a name true st = (Return self, st') ->
  exists s a' vs,
    name = Str s /\ s <> "" /\ self = next_ref st /\
    let full := qualified (variable_scope st) s in
    INSTANCES st !! full = None /\
    INSTANCES st' = <[full := self]> (INSTANCES st) /\
    variables st' = (variables st ++ vs)%list /\
    Forall (fun v => startswith (tf.name v)
                       (tf.name_scope (tf.nested_scope (variable_scope st) s)) = true
                     /\ tf.trainable v = true) vs /\
    variable_scope st' = variable_scope st /\ session st' = session st /\
    objects st' =
      <[self := {| _name := Some s; _scope := variable_scope st;
                   _full_name := Some full; _prefix := Some (full ++ "/");
                   _built := true; attrs := a' |}]> (objects st).
Proof.
  unfold Widget___init__.
  set (check := match name with None_ => _ | _ => _ end).
  unfold mbind at 1. unfold M_bind at 1.
  destruct (check st) as [[n|e] st0] eqn:Echeck; [|done].
  assert (st0 = st /\ match n with
                      | Some s => name = Str s /\ s <> ""
                      | None => name = None_
                      end) as [-> Hn].
  { subst check. destruct name; simpl in Echeck; try done.
    - by injection Echeck as <- <-.
    - destruct (_ || _) eqn:E; [done|]. injection Echeck as <- <-.
      split; [done|]. split; [done|]. intros ->.
      apply orb_false_iff in E as [_ E]. done. }
  clear Echeck check.
  unfold mbind at 1. unfold M_bind at 1. unfold alloc at 1.
  set (w0 := {| _name := n; _scope := ""; _full_name := None; _prefix := None;
                _built := false; attrs := a |}).
  set (sta := {| variable_scope := variable_scope st; variables := variables st;
                 session := session st; INSTANCES := INSTANCES st;
                 objects := <[next_ref st := w0]> (objects st);
                 next_ref := S (next_ref st) |}).
  assert (Hw : objects sta !! next_ref st = Some w0) by apply lookup_insert_eq.
  unfold mbind, M_bind.
  destruct n as [s|]; cycle 1.
  { destruct (Widget_build_unnamed (next_ref st) sta w0 Hw eq_refl eq_refl)
      as (msg & st'' & E).
    by rewrite E. }
  destruct Hn as [-> Hs].
  rewrite (Widget_build_unbuilt (next_ref st) sta w0 s Hw eq_refl eq_refl).
  set (st1 := set_variable_scope _ _).
  pose proof (_build_step (attrs w0) st1) as [(Hsc & Hse & Hin & Hob & Hnx) (vs & Hvs & Hall)].
  destruct (_build (attrs w0) st1) as [[a'|e] st2]; [|done].
  simpl in Hsc, Hse, Hin, Hob, Hnx, Hvs, Hall.
  destruct (INSTANCES sta !! _) eqn:Ereg; [done|].
  intros [= <- <-]. exists s, a', vs. simpl.
  repeat split; try done.
  by rewrite insert_insert_eq.
Qed.

Lemma select_prefixed_Some p l :
  select_prefixed (Some p) l =
  Return (List.filter (fun v => startswith (tf.name v) p) l).
Proof. by destruct l. Qed.

Lemma elem_of_List_filter {A} (f : A -> bool) (l : list A) x :
  x ∈ List.filter f l <-> x ∈ l /\ f x = true.
Proof. rewrite !list_elem_of_In. apply filter_In. Qed.



(** ** Looking things up by name *)

Lemma stdpp_filter_bool {A} (f : A -> bool) (l : list A) :
  filter (fun x => f x = true) l = List.filter f l.
Proof.
  induction l as [|x l IH]; [done|].
  rewrite filter_cons. simpl. rewrite IH.
  destruct (f x) eqn:E; by case_decide.
Qed.

Lemma List_filter_comm {A} (f g : A -> bool) (l : list A) :
  List.filter f (List.filter g l) = List.filter g (List.filter f l).
Proof.
  induction l as [|x l IH]; [done|]. simpl.
  destruct (f x) eqn:Ef, (g x) eqn:Eg; simpl; rewrite ?Ef, ?Eg, IH; done.
Qed.

(** [get_trainable_variables] is the trainable part of [get_variables]:
    whenever the latter returns, the former returns its trainable members
    in the same order, nothing is changed, and for a named widget with a
    prefix every listed name starts with the prefix. *)
Theorem trainable_variables_are_the_trainable_part
    (self : nat) (st st1 : world) (l : list tf.variable) :
  Widget_get_variables self st = (Return l, st1) ->
  st1 = st /\
  Widget_get_trainable_variables self st = (Return (List.filter tf.trainable l), st) /\
  forall w p, objects st !! self = Some w -> _name w <> None -> _prefix w = Some p ->
              forall v, v ∈ l -> startswith (tf.name v) p = true.
Proof.
  unfold Widget_get_variables, Widget_get_trainable_variables, mbind, M_bind,
    get_obj, tf_global_variables, tf_trainable_variables, lift.
  destruct (objects st !! self) as [w|]; [|done].
  destruct (_name w) as [n|] eqn:Hn.
  - rewrite stdpp_filter_bool. destruct (_prefix w) as [p|] eqn:Hp.
    + rewrite !select_prefixed_Some. intros [= <- <-].
      split; [done|]. split; [by rewrite List_filter_comm|].
      intros w' p' [= <-] _ Hp' v Hv. rewrite Hp in Hp'. injection Hp' as <-.
      by apply elem_of_List_filter in Hv as [_ Hv].
    + destruct (variables st) as [|v vs]; [|done]. simpl. intros [= <- <-].
      split; [done|]. split; [done|]. intros ? ? ? ? ? v Hv. by apply elem_of_nil in Hv.
  - intros [= <- <-]. split; [done|]. split; [done|].
    intros w' p' [= <-] Hn'. done.
Qed.

Lemma trainable_variables_are_the_trainable_part_witness :
  snd (Widget_get_variables 0 world_with_l) = world_with_l /\
  Widget_get_trainable_variables 0 world_with_l =
    (Return (List.filter tf.trainable (variables world_with_l)), world_with_l).
Proof.
  destruct (trainable_variables_are_the_trainable_part
              0 world_with_l world_with_l (variables world_with_l)) as (H1 & H2 & _).
  - vm_compute. reflexivity.
  - split; [vm_compute; reflexivity | exact H2].
Defined.

Lemma find_by_name_spec (full p : string) (vars : list tf.variable) :
  startswith full p = true ->
  let r := List.find (fun var => String.eqb full (tf.name var)) vars in
  (forall v, r = Some v ->
     tf.name v = full /\
     v ∈ List.filter (fun v => startswith (tf.name v) p) vars) /\
  (r = None <-> forall v, v ∈ vars -> tf.name v <> full).
Proof.
  intros Hp r. subst r. split.
  - intros v Hv. apply find_some in Hv as [Hin Heq].
    apply String.eqb_eq in Heq. split; [done|].
    apply elem_of_List_filter. split; [by apply list_elem_of_In|].
    by rewrite <- Heq.
  - split.
    + intros Hnone v Hv Heq. apply list_elem_of_In in Hv.
      pose proof (find_none _ _ Hnone v Hv) as H. simpl in H.
      apply String.eqb_neq in H. congruence.
    + intros Hall. destruct (List.find _ _) as [v|] eqn:Ef; [|done].
      apply find_some in Ef as [Hin Heq]. apply String.eqb_eq in Heq.
      exfalso. apply (Hall v); [by apply list_elem_of_In | done].
Qed.

(** [get_variable] agrees with [get_variables]: for a named widget with
    prefix [p] it returns the first variable of the graph whose name is
    [p] followed by the given name (and by ":0" when the name has no
    colon), a variable that [get_variables] lists too, and it returns
    [None] exactly when the graph has no variable of that name. *)
Theorem get_variable_agrees_with_get_variables
    (self : nat) (st : world) (w : widget) (p name : string) :
  objects st !! self = Some w -> _name w <> None -> _prefix w = Some p ->
  let full := if has_colon name then p ++ name else p ++ name ++ ":0" in
  exists r l,
    Widget_get_variable self name st = (Return r, st) /\
    Widget_get_variables self st = (Return l, st) /\
    (forall v, r = Some v -> tf.name v = full /\ v ∈ l) /\
    (r = None <-> forall v, v ∈ variables st -> tf.name v <> full).
Proof.
  intros Hw Hn Hp full.
  unfold Widget_get_variable, Widget_get_variables, mbind, M_bind, get_obj,
    tf_global_variables, lift, mret, M_ret.
  rewrite Hw, Hp. destruct (_name w) as [n|]; [|done].
  rewrite select_prefixed_Some. subst full.
  destruct (has_colon name); simpl;
    (eexists _, _; split; [reflexivity|]; split; [reflexivity|]);
    apply find_by_name_spec, startswith_app.
Qed.

Lemma get_variable_agrees_with_get_variables_witness :
  exists r l,
    Widget_get_variable 0 "w" world_with_l = (Return r, world_with_l) /\
    Widget_get_variables 0 world_with_l = (Return l, world_with_l) /\
    (forall v, r = Some v -> tf.name v = "l/" ++ "w" ++ ":0" /\ v ∈ l) /\
    (r = None <-> forall v, v ∈ variables world_with_l -> tf.name v <> "l/" ++ "w" ++ ":0").
Proof.
  eapply (get_variable_agrees_with_get_variables 0 world_with_l _ "l/" "w");
    [vm_compute; reflexivity | discriminate | reflexivity].
Defined.

Example get_variable_finds_the_weight :
  fst (Widget_get_variable 0 "w" world_with_l) =
  Return (Some (tf.MkVariable "l/w:0" true [3; 2]%Z)).
Proof. vm_compute. reflexivity. Qed.

Lemma world_ok_set_variable_scope s st :
  world_ok st -> world_ok (set_variable_scope s st).
Proof. done. Qed.

Lemma world_inside_m_ok : world_ok world_inside_m.
Proof.
  apply world_ok_set_variable_scope, Widget_init_world_ok, world_ok_empty.
Qed.

(** A widget constructed inside the scope of another one is found through
    it: if the scope is the full name [f] of a widget with prefix [f/],
    then after a constructor has returned a widget named [s], looking up
    [s] as an attribute (or item) of the enclosing widget yields exactly
    that widget, whatever the graph holds under this name. *)
Theorem child_is_found_through_parent
    (get_tensor_by_name : string -> M tf.tensor)
    (a : class_attrs) (name : object) (st : world) (child : nat) (st' : world)
    (parent : nat) (wp : widget) (f : string) :
  world_ok st ->
  Widget___init__ a name true st = (Return child, st') ->
  objects st !! parent = Some wp -> _prefix wp = Some (f ++ "/") ->
  variable_scope st = f -> f <> "" -> endswith_slash f = false ->
  exists s,
    name = Str s /\
    Widget___getattr__ get_tensor_by_name parent s st' = (Return (Instance child), st') /\
    Widget___getitem__ get_tensor_by_name parent s st' = (Return (Instance child), st').
Proof.
  intros (_ & _ & Hfresh) H Hparent Hprefix Hscope Hf Hslash.
  apply Widget_init_returns in H
    as (s & a' & vs & -> & Hs & -> & Hnone & Hreg & _ & _ & _ & _ & Hobj).
  exists s. split; [done|].
  assert (E : Widget___getattr__ get_tensor_by_name parent s st'
              = (Return (Instance (next_ref st)), st')).
  { unfold Widget___getattr__, mbind, M_bind, get_obj, mret, M_ret.
    rewrite Hobj, lookup_insert_ne; cycle 1.
    { intros <-. rewrite Hfresh in Hparent; [done | lia]. }
    rewrite Hparent, Hprefix, Hreg.
    assert (Hq : qualified (variable_scope st) s = (f ++ "/") ++ s).
    { unfold qualified. rewrite Hscope, Hslash.
      apply String.eqb_neq in Hf. rewrite Hf. by rewrite string_app_assoc. }
    rewrite Hq. by rewrite lookup_insert_eq. }
  split; [exact E | exact E].
Qed.

Lemma child_is_found_through_parent_witness :
  let st' := snd (Linear___init__ (Str "dense") 3 2 true world_inside_m) in
  exists s,
    Str "dense" = Str s /\
    Widget___getattr__ (fun n => raise (KeyError n)) 0 s st' = (Return (Instance 1), st') /\
    Widget___getitem__ (fun n => raise (KeyError n)) 0 s st' = (Return (Instance 1), st').
Proof.
  eapply (child_is_found_through_parent (fun n => raise (KeyError n))
            (OfLinear (Linear.Make 3 2 true None None)) (Str "dense")
            world_inside_m 1 _ 0 _ "m").
  - apply world_inside_m_ok.
  - vm_compute. reflexivity.
  - vm_compute. reflexivity.
  - reflexivity.
  - reflexivity.
  - discriminate.
  - reflexivity.
Defined.

Example child_variables_are_named_below_the_parent :
  variables (snd (Linear___init__ (Str "dense") 3 2 true world_inside_m)) =
  [tf.MkVariable "m/dense/w:0" true [3; 2]%Z; tf.MkVariable "m/dense/b:0" true [2]%Z].
Proof. vm_compute. reflexivity. Qed.

(** ** Setting and getting parameter values *)

Lemma var_dict_fold_Some (l : list tf.variable) :
  forall (d : gmap string tf.variable),
    (forall k v, d !! k = Some v -> tf.name v = k) ->
    forall k v, foldl (fun d var => <[tf.name var := var]> d) d l !! k = Some v ->
                tf.name v = k.
Proof.
  induction l as [|x l IH]; intros d Hd k v; simpl; [apply Hd|].
  apply IH. intros k' v' H.
  apply lookup_insert_Some in H as [[<- <-]|[_ H]]; [done | by apply Hd].
Qed.

Lemma var_dict_of_Some l k v : var_dict_of l !! k = Some v -> tf.name v = k.
Proof.
  apply var_dict_fold_Some. intros k' v' H. by rewrite lookup_empty in H.
Qed.

Lemma set_session_id st : set_session (session st) st = st.
Proof. by destruct st. Qed.

(** With known keys only, the loop loads every item, in order. *)
Lemma set_parameters_loop_known d strict items :
  (forall k v, d !! k = Some v -> tf.name v = k) ->
  forall st,
    Forall (fun item => d !! item.1 <> None) items ->
    set_parameters_loop d items strict st =
    (Return tt, set_session (load_items items (session st)) st).
Proof.
  intros Hd. induction items as [|[k v] items IH]; intros st Hall; simpl.
  - by rewrite set_session_id.
  - inversion Hall as [|? ? Hk Hrest]; subst. simpl in Hk.
    unfold mbind, M_bind. destruct (d !! k) as [var|] eqn:E; [|done].
    rewrite bool_decide_eq_false_2 by done. simpl.
    unfold var_load. rewrite (Hd k var E).
    rewrite (IH _ Hrest). done.
Qed.

Lemma load_items_other items : forall (s : gmap string tf.ndarray) k,
  k ∉ items.*1 -> load_items items s !! k = s !! k.
Proof.
  induction items as [|[k0 v0] items IH]; intros s k Hk; [done|].
  simpl in *. apply not_elem_of_cons in Hk as [Hne Hk].
  unfold load_items in *. simpl. rewrite IH by done. by rewrite lookup_insert_ne.
Qed.

Lemma load_items_lookup items : forall (s : gmap string tf.ndarray) k v,
  NoDup items.*1 -> (k, v) ∈ items -> load_items items s !! k = Some v.
Proof.
  induction items as [|[k0 v0] items IH]; intros s k v Hnd Hin.
  - by apply elem_of_nil in Hin.
  - simpl in Hnd. apply NoDup_cons in Hnd as [Hk0 Hnd].
    apply elem_of_cons in Hin as [[= -> ->]|Hin].
    + change (load_items items (<[k0 := v0]> s) !! k0 = Some v0).
      rewrite load_items_other by done. apply lookup_insert_eq.
    + change (load_items items (<[k0 := v0]> s) !! k = Some v). by apply IH.
Qed.

Lemma get_trainable_variables_state self st :
  snd (Widget_get_trainable_variables self st) = st.
Proof.
  unfold Widget_get_trainable_variables, mbind, M_bind, get_obj,
    tf_trainable_variables, lift.
  destruct (objects st !! self) as [w|]; [|done].
  destruct (_name w); [|done]. done.
Qed.

Lemma get_trainable_variables_set_session self s st :
  Widget_get_trainable_variables self (set_session s st) =
  (fst (Widget_get_trainable_variables self st), set_session s st).
Proof.
  unfold Widget_get_trainable_variables, mbind, M_bind, get_obj,
    tf_trainable_variables, lift. simpl.
  destruct (objects st !! self) as [w|]; [|done].
  destruct (_name w); [|done]. done.
Qed.





(** ** The shape arithmetic in integers *)

Lemma is_ceil_unique q n m : is_ceil q n -> is_ceil q m -> n = m.
Proof.
  intros [Hn Hleast_n] [Hm Hleast_m].
  pose proof (Hleast_n m Hm). pose proof (Hleast_m n Hn). lia.
Qed.

Lemma Qdiv_le_inject (a s n : Z) :
  (0 < s)%Z -> (inject_Z a / inject_Z s <= inject_Z n)%Q <-> (a <= n * s)%Z.
Proof.
  intros Hs. destruct s as [|p|p]; try lia.
  unfold Qle, Qdiv, Qmult, Qinv, inject_Z. simpl.
  rewrite ?Z.mul_1_r, ?Pos.mul_1_l. done.
Qed.

Lemma is_ceil_integer (a s : Z) :
  (0 < s)%Z -> is_ceil (inject_Z a / inject_Z s) ((a + s - 1) / s).
Proof.
  intros Hs. split.
  - apply (proj2 (Qdiv_le_inject a s _ Hs)).
    pose proof (Z.div_mod (a + s - 1) s ltac:(lia)) as H.
    pose proof (Z.mod_pos_bound (a + s - 1) s Hs) as H0.
    revert H H0. generalize ((a + s - 1) / s)%Z ((a + s - 1) mod s)%Z.
    intros q r H H0. rewrite Z.mul_comm. lia.
  - intros m Hm. apply (proj1 (Qdiv_le_inject a s m Hs)) in Hm.
    assert ((a + s - 1) / s < m + 1)%Z; [|lia].
    apply Z.div_lt_upper_bound; [done|].
    rewrite Z.mul_add_distr_l, (Z.mul_comm s m). lia.
Qed.

(** For a positive divisor [math.ceil(a / s)] is the integer quotient
    [(a + s - 1) // s]. *)
Lemma ceil_div_integer (a s : Z) :
  (0 < s)%Z -> ceil_div a s = Return ((a + s - 1) / s)%Z.
Proof.
  intros Hs. unfold ceil_div.
  destruct (s =? 0)%Z eqn:E; [lia|]. f_equal.
  apply (is_ceil_unique (inject_Z a / inject_Z s));
    [apply Qceiling_is_ceil | by apply is_ceil_integer].
Qed.

Lemma ceil_quotient_positive (a s : Z) :
  (0 < s)%Z -> (0 < (a + s - 1) / s <-> 0 < a)%Z.
Proof.
  intros Hs.
  pose proof (Z.div_mod (a + s - 1) s ltac:(lia)) as H.
  pose proof (Z.mod_pos_bound (a + s - 1) s Hs) as H0.
  revert H H0. generalize ((a + s - 1) / s)%Z ((a + s - 1) mod s)%Z.
  intros q r H H0. split; intros; nia.
Qed.

(** The output extent of the specification, in integers. *)
Lemma spec_output_size_integer padding i f s o :
  (0 < s)%Z -> spec_output_size padding i f s o ->
  o = (if String.eqb padding "SAME" then (i + s - 1) / s else (i - f + s) / s)%Z /\
  ((0 < o)%Z <-> if String.eqb padding "SAME" then (0 < i)%Z else (f <= i)%Z).
Proof.
  unfold spec_output_size. intros Hs H.
  destruct (String.eqb padding "SAME").
  - assert (o = ((i + s - 1) / s)%Z) as ->
      by (eapply is_ceil_unique; [exact H | by apply is_ceil_integer]).
    split; [done | by apply ceil_quotient_positive].
  - assert (o = ((i - f + 1 + s - 1) / s)%Z) as ->
      by (eapply is_ceil_unique; [exact H | by apply is_ceil_integer]).
    replace (i - f + 1 + s - 1)%Z with (i - f + s)%Z by lia.
    split; [done|].
    replace (i - f + s)%Z with ((i - f + 1) + s - 1)%Z by lia.
    rewrite ceil_quotient_positive by done. lia.
Qed.

(** What the three constructors store, as a lemma for what follows. *)
Lemma constructed_extents :
  (forall name input_size oc fh fw sh sw padding flat st self st',
     Conv2D___init__ name input_size oc fh fw sh sw padding flat st = (Return self, st') ->
     exists ih iw ic w a,
       input_size = Seq [ih; iw; ic] /\
       objects st' !! self = Some w /\ attrs w = OfConv2D a /\
       spec_output_size padding ih fh sh (Conv2D._output_height a) /\
       spec_output_size padding iw fw sw (Conv2D._output_width a)) /\
  (forall name input_size fh fw sh sw padding pool_type st self st',
     Pool2D___init__ name input_size fh fw sh sw padding pool_type st = (Return self, st') ->
     exists ih iw ic rest w a,
       input_size = Seq (ih :: iw :: ic :: rest) /\
       objects st' !! self = Some w /\ attrs w = OfPool2D a /\
       spec_output_size padding ih fh sh (Pool2D._output_height a) /\
       spec_output_size padding iw fw sw (Pool2D._output_width a)) /\
  (forall name input_size oc groups fh fw sh sw padding data_format flat st self st',
     GroupConv2D___init__ name input_size oc groups fh fw sh sw padding data_format flat st
       = (Return self, st') ->
     exists ih iw ic w a,
       input_size = Seq [ih; iw; ic] /\
       objects st' !! self = Some w /\ attrs w = OfGroupConv2D a /\
       spec_output_size padding ih fh sh (GroupConv2D._output_height a) /\
       spec_output_size padding iw fw sw (GroupConv2D._output_width a)).
Proof.
  split; [|split].
  - intros name input_size oc fh fw sh sw padding flat st self st'.
    unfold Conv2D___init__.
    destruct input_size as [[|ih [|iw [|ic [|]]]]|]; try done.
    unfold mbind at 1. unfold M_bind at 1.
    match goal with |- (match ?c with _ => _ end) = _ -> _ =>
      destruct c as [[[oh ow]|e] st0] eqn:E end; [|done].
    apply output_extents_run in E as (-> & Hh & Hw).
    intros H. apply Widget_init_build_returns in H as (w' & st_in & st_out & Hobj & _ & Hhook).
    apply Conv2D_hook_keeps_shape in Hhook as (c & Hc & Eh & Ew). simpl in Eh, Ew.
    exists ih, iw, ic, w', c. rewrite Eh, Ew. done.
  - intros name input_size fh fw sh sw padding pool_type st self st'.
    unfold Pool2D___init__.
    destruct (negb _); [done|].
    destruct input_size as [[|ih [|iw [|ic rest]]]|]; try done.
    unfold item. simpl. unfold mbind at 1 2 3 4. unfold M_bind at 1 2 3 4. simpl.
    match goal with |- (match ?c with _ => _ end) = _ -> _ =>
      destruct c as [[[oh ow]|e] st0] eqn:E end; [|done].
    apply output_extents_run in E as (-> & Hh & Hw).
    intros H. apply Widget_init_build_returns in H as (w' & st_in & st_out & Hobj & _ & Hhook).
    apply Pool2D_hook_keeps_shape in Hhook as (c & Hc & Eh & Ew). simpl in Eh, Ew.
    exists ih, iw, ic, rest, w', c. rewrite Eh, Ew. done.
  - intros name input_size oc groups fh fw sh sw padding data_format flat st self st'.
    unfold GroupConv2D___init__.
    destruct input_size as [[|ih [|iw [|ic [|]]]]|]; try done.
    unfold mbind at 1. unfold M_bind at 1.
    match goal with |- (match ?c with _ => _ end) = _ -> _ =>
      destruct c as [[[oh ow]|e] st0] eqn:E end; [|done].
    apply output_extents_run in E as (-> & Hh & Hw).
    intros H. apply Widget_init_build_returns in H as (w' & st_in & st_out & Hobj & _ & Hhook).
    apply GroupConv2D_hook_keeps_shape in Hhook as (c & Hc & Eh & Ew). simpl in Eh, Ew.
    exists ih, iw, ic, w', c. rewrite Eh, Ew. done.
Qed.



Example filter_larger_than_input_gives_empty_output :
  (attrs <$> objects (snd (Conv2D___init__ (Str "c") (Seq [2; 28; 1]%Z) 8 3 3 2 2 "VALID"
                             false empty_world)) !! 0) =
  Some (OfConv2D (Conv2D.Make 2 28 1 8 3 3 2 2 "VALID" false 0 13 0
                    (Some (tf.Var "c/w:0")) (Some (tf.Var "c/b:0")))).
Proof. vm_compute. reflexivity. Qed.

(** ** The transposed convolution *)

Lemma ceil_quotient_bounds (a s : Z) :
  (0 < s)%Z ->
  (a <= (a + s - 1) / s * s < a + s)%Z /\
  (((a + s - 1) / s * s = a)%Z <-> (s | a)%Z).
Proof.
  intros Hs. split; [|split].
  - pose proof (Z.div_mod (a + s - 1) s ltac:(lia)) as H.
    pose proof (Z.mod_pos_bound (a + s - 1) s Hs) as H0.
    revert H H0. generalize ((a + s - 1) / s)%Z ((a + s - 1) mod s)%Z.
    intros q r H H0. lia.
  - intros E. by exists ((a + s - 1) / s)%Z.
  - intros [k ->]. f_equal. symmetry.
    apply (Z.div_unique (k * s + s - 1) s k (s - 1)); lia.
Qed.



(** ** The gate *)

Lemma Gate__build_loop_length input_sizes : forall i output_size w_list st ws,
  fst (Gate__build_loop i input_sizes output_size w_list st) = Return ws ->
  length ws = (length w_list + length input_sizes)%nat.
Proof.
  induction input_sizes as [|z rest IH]; intros i output_size w_list st ws; simpl.
  - intros [= <-]. lia.
  - unfold mbind, M_bind. simpl. intros H. apply IH in H.
    rewrite length_app in H. simpl in H. lia.
Qed.

Lemma Gate_hook_result g st a' st' :
  _build (OfGate g) st = (Return a', st') ->
  exists ws b,
    a' = OfGate (Gate.Make (Gate._input_sizes g) (Gate._output_size g) (Some ws) (Some b)) /\
    length ws = length (Gate._input_sizes g).
Proof.
  simpl. unfold Gate__build, mbind, M_bind, mret, M_ret.
  destruct (Gate__build_loop 0 _ _ [] st) as [[ws|e] st1] eqn:E; [|done].
  simpl. intros [= <- <-]. eexists ws, _. split; [done|].
  apply (f_equal fst) in E. by apply Gate__build_loop_length in E.
Qed.

Lemma Gate__setup_loop_matching xs : forall ws y st,
  length xs = length ws ->
  exists y', Gate__setup_loop xs ws y st = (Return y', st) /\
             (xs <> [] \/ y <> None -> y' <> None).
Proof.
  induction xs as [|x xs IH]; intros ws y st Hlen; simpl.
  - exists y. split; [done|]. intros [?|?]; done.
  - destruct ws as [|w ws]; [done|]. simpl in Hlen.
    destruct (IH ws (Some match y with
                          | None => tf.MatMul x w
                          | Some y0 => tf.Add None y0 (tf.MatMul x w)
                          end) st ltac:(lia)) as (y' & E & Hy').
    exists y'. split; [done|]. intros _. apply Hy'. by right.
Qed.



(** ** The GRU step of a constructed cell *)

Section ConstructedCell.

Variable T : Type.
Variables matmul add sub mul : T -> T -> T.
Variables sigmoid tanh relu : T -> T.
Variable const : Q -> T.
Variables input var : string -> T.


End ConstructedCell.


(** ** Attributes that are tensors *)

Lemma has_colon_app a b : has_colon (a ++ b) = has_colon a || has_colon b.
Proof.
  induction a as [|c a IH]; [done|].
  change (Ascii.eqb c ":" || has_colon (a ++ b)
          = Ascii.eqb c ":" || has_colon a || has_colon b).
  rewrite IH. by rewrite orb_assoc.
Qed.

(** Attribute access falls back on [get_tensor]: for a widget whose prefix
    has no colon, a name that is not registered under the prefix is looked
    up as a tensor, with the same result and the same errors as
    [get_tensor] gives for it. *)
Theorem getattr_falls_back_on_get_tensor
    (get_tensor_by_name : string -> M tf.tensor)
    (self : nat) (st : world) (w : widget) (p name : string) :
  objects st !! self = Some w -> _prefix w = Some p -> has_colon p = false ->
  INSTANCES st !! (p ++ name) = None ->
  Widget___getattr__ get_tensor_by_name self name st =
  match Widget_get_tensor get_tensor_by_name self name st with
  | (Return (Some t), st') => (Return (TensorOf t), st')
  | (Return None, st') => (Return NoAttribute, st')
  | (Raise e, st') => (Raise e, st')
  end.
Proof.
  intros Hw Hp Hcolon Hreg.
  unfold Widget___getattr__, Widget_get_tensor, mbind, M_bind, get_obj, mret, M_ret.
  rewrite Hw, Hp, Hreg, has_colon_app, Hcolon. simpl.
  destruct (has_colon name); simpl.
  - by destruct (tensor_or_None get_tensor_by_name (p ++ name) st) as [[[t|]|e] st'].
  - rewrite string_app_assoc.
    by destruct (tensor_or_None get_tensor_by_name (p ++ name ++ ":0") st)
         as [[[t|]|e] st'].
Qed.

Lemma getattr_falls_back_on_get_tensor_witness :
  Widget___getattr__ (fun n => mret (tf.Var n)) 0 "w" world_with_l =
  match Widget_get_tensor (fun n => mret (tf.Var n)) 0 "w" world_with_l with
  | (Return (Some t), st') => (Return (TensorOf t), st')
  | (Return None, st') => (Return NoAttribute, st')
  | (Raise e, st') => (Raise e, st')
  end.
Proof.
  eapply (getattr_falls_back_on_get_tensor _ 0 world_with_l _ "l/" "w");
    [vm_compute; reflexivity | reflexivity | reflexivity | vm_compute; reflexivity].
Defined.

Example getattr_of_a_parameter :
  fst (Widget___getattr__ (fun n => mret (tf.Var n)) 0 "w" world_with_l) =
  Return (TensorOf (tf.Var "l/w:0")).
Proof. vm_compute. reflexivity. Qed.

Example getattr_of_an_unknown_name :
  fst (Widget___getattr__ (fun n => raise (KeyError n)) 0 "nothing" world_with_l) =
  Return NoAttribute.
Proof. vm_compute. reflexivity. Qed.

(** ** The parameters a layer creates *)

(** A constructor call that returns has run the hook inside the widget's
    scope; the variables afterwards are the hook's. *)
Lemma Widget_init_returns_hook a name st self st' :
  Widget___init__ a name true st = (Return self, st') ->
  exists s st1 st2 a',
    name = Str s /\ s <> "" /\
    variables st1 = variables st /\
    variable_scope st1 = tf.nested_scope (variable_scope st) s /\
    _build a st1 = (Return a', st2) /\ variables st' = variables st2.
Proof.
  unfold Widget___init__.
  set (check := match name with None_ => _ | _ => _ end).
  unfold mbind at 1. unfold M_bind at 1.
  destruct (check st) as [[n|e] st0] eqn:Echeck; [|done].
  assert (st0 = st /\ match n with
                      | Some s => name = Str s /\ s <> ""
                      | None => name = None_
                      end) as [-> Hn].
  { subst check. destruct name; simpl in Echeck; try done.
    - by injection Echeck as <- <-.
    - destruct (_ || _) eqn:E; [done|]. injection Echeck as <- <-.
      split; [done|]. split; [done|]. intros ->.
      apply orb_false_iff in E as [_ E]. done. }
  clear Echeck check.
  unfold mbind at 1. unfold M_bind at 1. unfold alloc at 1.
  set (w0 := {| _name := n; _scope := ""; _full_name := None; _prefix := None;
                _built := false; attrs := a |}).
  set (sta := {| variable_scope := variable_scope st; variables := variables st;
                 session := session st; INSTANCES := INSTANCES st;
                 objects := <[next_ref st := w0]> (objects st);
                 next_ref := S (next_ref st) |}).
  assert (Hw : objects sta !! next_ref st = Some w0) by apply lookup_insert_eq.
  unfold mbind, M_bind.
  destruct n as [s|]; cycle 1.
  { destruct (Widget_build_unnamed (next_ref st) sta w0 Hw eq_refl eq_refl)
      as (msg & st'' & E).
    by rewrite E. }
  destruct Hn as [-> Hs].
  rewrite (Widget_build_unbuilt (next_ref st) sta w0 s Hw eq_refl eq_refl).
  set (st1 := set_variable_scope _ _).
  destruct (_build (attrs w0) st1) as [[a'|e] st2] eqn:Ehook; [|done].
  destruct (INSTANCES sta !! _) eqn:Ereg; [done|].
  intros [= <- <-]. exists s, st1, st2, a'. done.
Qed.

Lemma Qfloor_inject_div (a g : Z) :
  g <> 0%Z -> Qfloor (inject_Z a / inject_Z g) = (a / g)%Z.
Proof.
  intros Hg. destruct g as [|p|p]; [done| |].
  - unfold Qdiv, Qmult, Qinv, inject_Z, Qfloor. simpl.
    by rewrite Z.mul_1_r, Pos.mul_1_l.
  - unfold Qdiv, Qmult, Qinv, inject_Z, Qfloor. simpl.
    rewrite Pos.mul_1_l.
    replace (a * -1)%Z with (- a)%Z by lia.
    change (Z.neg p) with (- Z.pos p)%Z.
    rewrite <- (Z.div_opp_opp (- a) (Z.pos p)) by done.
    by rewrite Z.opp_involutive.
Qed.

Lemma floor_div_integer (a g : Z) :
  g <> 0%Z -> floor_div a g = Return (a / g)%Z.
Proof.
  intros Hg. unfold floor_div. destruct (g =? 0)%Z eqn:E; [lia|].
  by rewrite Qfloor_inject_div.
Qed.


